(** * Shallow embedding of upgrade_viz.py (gateway upgrade log visualiser)

    The module [upgrade_viz.py] has three parts that matter here:
    - [LogParser]: a line-by-line reconstructor that keeps a Python dict
      from gateway name to [UpgradeEvent] (insertion ordered) and an
      optional overall start time;
    - [calculate_upgrade_stats]: a read-only summary of durations;
    - [SVGGanttChart.generate_chart]: the layout of the Gantt chart.

    Conventions of the embedding:
    - Python exceptions are values of [except A] ([Error ValueError], ...);
    - strings are Stdlib [string]s of ASCII characters, so [\d] and [\s]
      of Python's regexes and [str.strip] are read on the ASCII range;
    - an aware [datetime] is a record of its fields; comparisons and
      subtraction go through its UTC instant in microseconds;
    - Python floats derived from [timedelta.total_seconds()] are exact
      rationals ([Q]); the computations below never depend on rounding
      (divisions of a value by itself, comparisons far from boundaries).
*)

From Stdlib Require Import String Ascii ZArith QArith List Bool Lia.
From Stdlib Require Import Permutation Sorted Lqa Qfield.
Import ListNotations.

Open Scope string_scope.
Open Scope Z_scope.

(** ** Exceptions *)

Inductive PyExc := ValueError | OverflowError | ZeroDivisionError.

Inductive except (A : Type) : Type :=
| Ok (a : A)
| Error (e : PyExc).
Arguments Ok {A} a.
Arguments Error {A} e.

Definition bind {A B} (m : except A) (k : A -> except B) : except B :=
  match m with
  | Ok a => k a
  | Error e => Error e
  end.

Notation "x <- m ;; k" := (bind m (fun x => k))
  (at level 61, m at next level, right associativity).

(** ** Characters and strings *)

Definition is_digit (c : ascii) : bool :=
  let n := nat_of_ascii c in (48 <=? n)%nat && (n <=? 57)%nat.

(** [str.isspace] on the ASCII range: \t \n \v \f \r, \x1c-\x1f, space. *)
Definition is_space (c : ascii) : bool :=
  let n := nat_of_ascii c in
  ((9 <=? n)%nat && (n <=? 13)%nat) || ((28 <=? n)%nat && (n <=? 32)%nat).

Fixpoint lstrip_l (l : list ascii) : list ascii :=
  match l with
  | c :: l' => if is_space c then lstrip_l l' else l
  | [] => []
  end.

(** [str.strip()] *)
Definition strip (s : string) : string :=
  string_of_list_ascii
    (rev (lstrip_l (rev (lstrip_l (list_ascii_of_string s))))).

Fixpoint starts_with (p s : string) : bool :=
  match p, s with
  | EmptyString, _ => true
  | String a p', String b s' => Ascii.eqb a b && starts_with p' s'
  | String _ _, EmptyString => false
  end.

(** [str.replace(old, new)] (all non-overlapping occurrences, left to right),
    for a non-empty [old]. *)
Fixpoint replace_fuel (n : nat) (old new s : string) : string :=
  match n with
  | O => s
  | S n' =>
      match s with
      | EmptyString => EmptyString
      | String c s' =>
          if starts_with old s
          then new ++ replace_fuel n' old new
                        (substring (String.length old) (String.length s - String.length old) s)
          else String c (replace_fuel n' old new s')
      end
  end.

Definition str_replace (old new s : string) : string :=
  replace_fuel (S (String.length s)) old new s.

(** Decimal value of a run of ASCII digits. *)
Fixpoint digits_val_acc (acc : Z) (l : list ascii) : Z :=
  match l with
  | [] => acc
  | c :: l' => digits_val_acc (acc * 10 + (Z.of_nat (nat_of_ascii c) - 48)) l'
  end.
Definition digits_val (l : list ascii) : Z := digits_val_acc 0 l.

(** ** [datetime] (aware, with a fixed UTC offset in seconds) *)

Record datetime := mk_datetime {
  dt_year : Z; dt_month : Z; dt_day : Z;
  dt_hour : Z; dt_minute : Z; dt_second : Z; dt_microsecond : Z;
  dt_utcoffset : Z
}.

Definition is_leap (y : Z) : bool :=
  (y mod 4 =? 0) && (negb (y mod 100 =? 0) || (y mod 400 =? 0)).

Definition days_in_month (y m : Z) : Z :=
  if (m =? 2) then (if is_leap y then 29 else 28)
  else if (m =? 4) || (m =? 6) || (m =? 9) || (m =? 11) then 30
  else 31.

Definition in_range (lo x hi : Z) : bool := (lo <=? x) && (x <=? hi).

(** The checks of the [datetime] constructor ([MINYEAR] = 1, [MAXYEAR] =
    9999) and of [timezone(timedelta(...))] (offset strictly inside one day). *)
Definition datetime_new (y mo d h mi s us off : Z) : except datetime :=
  if in_range 1 y 9999 && in_range 1 mo 12 && in_range 1 d (days_in_month y mo)
     && in_range 0 h 23 && in_range 0 mi 59 && in_range 0 s 59
     && in_range 0 us 999999 && in_range (-86399) off 86399
  then Ok (mk_datetime y mo d h mi s us off)
  else Error ValueError.

(** Day number of a proleptic Gregorian date (days since 1970-01-01). *)
Definition days_from_civil (y m d : Z) : Z :=
  let y' := if m <=? 2 then y - 1 else y in
  let era := y' / 400 in
  let yoe := y' - era * 400 in
  let doy := (153 * (if m >? 2 then m - 3 else m + 9) + 2) / 5 + d - 1 in
  let doe := yoe * 365 + yoe / 4 - yoe / 100 + doy in
  era * 146097 + doe - 719468.

(** Inverse of [days_from_civil]: (year, month, day). *)
Definition civil_from_days (z : Z) : Z * Z * Z :=
  let z := z + 719468 in
  let era := z / 146097 in
  let doe := z - era * 146097 in
  let yoe := (doe - doe / 1460 + doe / 36524 - doe / 146096) / 365 in
  let doy := doe - (365 * yoe + yoe / 4 - yoe / 100) in
  let mp := (5 * doy + 2) / 153 in
  let d := doy - (153 * mp + 2) / 5 + 1 in
  let m := if mp <? 10 then mp + 3 else mp - 9 in
  let y := yoe + era * 400 + (if m <=? 2 then 1 else 0) in
  (y, m, d).

Definition usec_per_day : Z := 86400 * 1000000.

(** Microseconds of the wall-clock fields (offset not applied). *)
Definition local_usec (t : datetime) : Z :=
  (days_from_civil (dt_year t) (dt_month t) (dt_day t) * 86400
   + dt_hour t * 3600 + dt_minute t * 60 + dt_second t) * 1000000
  + dt_microsecond t.

(** UTC instant in microseconds: what [<], [==] and [-] of aware
    datetimes compare. *)
Definition instant (t : datetime) : Z := local_usec t - dt_utcoffset t * 1000000.

Definition dt_lt (a b : datetime) : bool := instant a <? instant b.

(** [(a - b).total_seconds()] *)
Definition total_seconds_between (a b : datetime) : Q :=
  Qmake (instant a - instant b) 1 / inject_Z 1000000.

(** [t + timedelta(microseconds=us)]: wall-clock addition, the offset is
    kept; a result outside years 1..9999 raises [OverflowError]. *)
Definition dt_add_usec (t : datetime) (us : Z) : except datetime :=
  let u := local_usec t + us in
  let days := u / usec_per_day in
  let r := u mod usec_per_day in
  match civil_from_days days with
  | (y, m, d) =>
      if in_range 1 y 9999
      then Ok (mk_datetime y m d (r / 3600000000) ((r / 60000000) mod 60)
                 ((r / 1000000) mod 60) (r mod 1000000) (dt_utcoffset t))
      else Error OverflowError
  end.

(** [t.replace(second=s)] and [t.replace(microsecond=us)]: the constructor
    checks apply to the new value. *)
Definition replace_second (t : datetime) (s : Z) : except datetime :=
  datetime_new (dt_year t) (dt_month t) (dt_day t) (dt_hour t) (dt_minute t)
    s (dt_microsecond t) (dt_utcoffset t).

Definition replace_microsecond (t : datetime) (us : Z) : except datetime :=
  datetime_new (dt_year t) (dt_month t) (dt_day t) (dt_hour t) (dt_minute t)
    (dt_second t) us (dt_utcoffset t).

(** Rounding of a rational to the nearest integer, ties to even (how
    [timedelta(seconds=x)] rounds a float to microseconds). *)
Definition round_half_even (q : Q) : Z :=
  let n := Qnum q in
  let d := Zpos (Qden q) in
  let fl := n / d in
  let r := n - fl * d in
  if 2 * r <? d then fl
  else if d <? 2 * r then fl + 1
  else if Z.even fl then fl else fl + 1.

(** *** [datetime.fromisoformat] (CPython 3.11+)

    Only the shapes that reach it in this program are accepted:
    [YYYY-MM-DDTHH:MM:SS[.f+]] followed by [+HH:MM], [+HHMM], [-HH:MM] or
    [-HHMM]; anything else raises [ValueError].  Fractions keep their first
    six digits. *)

Definition take_digits (k : nat) (l : list ascii) : option (Z * list ascii) :=
  if (k <=? List.length l)%nat && forallb is_digit (firstn k l)
  then Some (digits_val (firstn k l), skipn k l) else None.

Definition expect (c : ascii) (l : list ascii) : option (list ascii) :=
  match l with
  | c' :: l' => if Ascii.eqb c c' then Some l' else None
  | [] => None
  end.

Fixpoint span_digits (l : list ascii) : list ascii * list ascii :=
  match l with
  | c :: l' => if is_digit c then let (a, b) := span_digits l' in (c :: a, b)
               else ([], l)
  | [] => ([], [])
  end.

(** Microseconds from a run of fraction digits. *)
Definition fraction_usec (ds : list ascii) : Z :=
  let k := Nat.min 6 (List.length ds) in
  digits_val (firstn k ds) * 10 ^ (6 - Z.of_nat k).

Definition parse_tz (l : list ascii) : option Z :=
  match l with
  | sg :: l1 =>
      let sign := if Ascii.eqb sg "+"%char then Some 1
                  else if Ascii.eqb sg "-"%char then Some (-1) else None in
      match sign, take_digits 2 l1 with
      | Some sn, Some (hh, l2) =>
          match l2 with
          | [] => None
          | c :: l3 =>
              let mm := if Ascii.eqb c ":"%char then take_digits 2 l3
                        else take_digits 2 l2 in
              match mm with
              | Some (m, []) => Some (sn * (hh * 3600 + m * 60))
              | _ => None
              end
          end
      | _, _ => None
      end
  | [] => None
  end.

Definition parse_iso (l : list ascii) : option (Z * Z * Z * Z * Z * Z * Z * Z) :=
  match take_digits 4 l with None => None | Some (y, l) =>
  match expect "-" l with None => None | Some l =>
  match take_digits 2 l with None => None | Some (mo, l) =>
  match expect "-" l with None => None | Some l =>
  match take_digits 2 l with None => None | Some (d, l) =>
  match expect "T" l with None => None | Some l =>
  match take_digits 2 l with None => None | Some (h, l) =>
  match expect ":" l with None => None | Some l =>
  match take_digits 2 l with None => None | Some (mi, l) =>
  match expect ":" l with None => None | Some l =>
  match take_digits 2 l with None => None | Some (s, l) =>
  let frac :=
    match expect "." l with
    | None => Some (0, l)
    | Some l' =>
        let (ds, rest) := span_digits l' in
        match ds with [] => None | _ => Some (fraction_usec ds, rest) end
    end in
  match frac with None => None | Some (us, l) =>
  match parse_tz l with None => None | Some off =>
    Some (y, mo, d, h, mi, s, us, off)
  end end end end end end end end end end end end end.

Definition fromisoformat (s : string) : except datetime :=
  match parse_iso (list_ascii_of_string s) with
  | Some (y, mo, d, h, mi, se, us, off) => datetime_new y mo d h mi se us off
  | None => Error ValueError
  end.

(** ** Regular expressions ([re] module), for the constructs used here

    A backtracking matcher in continuation-passing style: greedy
    repetitions of a character class try the longest run first and give
    back one character at a time, as [sre] does for single-character
    repeats.  Captures are (group number, captured text). *)

Inductive regex :=
| RLit (s : string)                 (* literal text *)
| RChar (p : ascii -> bool)         (* one character of a class *)
| RStar (p : ascii -> bool)         (* greedy [p*] *)
| RGroup (n : nat) (r : regex)      (* capture group [n] *)
| RSeq (r1 r2 : regex)
| REnd.                             (* [$] without MULTILINE *)

Definition RPlus (p : ascii -> bool) : regex := RSeq (RChar p) (RStar p).

Definition captures := list (nat * string).

Fixpoint group (n : nat) (cs : captures) : option string :=
  match cs with
  | (m, s) :: cs' => if Nat.eqb n m then Some s else group n cs'
  | [] => None
  end.

Section Matcher.
Variable A : Type.

Fixpoint star_match (p : ascii -> bool) (k : string -> option A) (s : string)
  : option A :=
  match s with
  | String c s' =>
      if p c then
        match star_match p k s' with
        | Some r => Some r
        | None => k s
        end
      else k s
  | EmptyString => k s
  end.
End Matcher.
Arguments star_match {A}.

Fixpoint re_match (r : regex) (cs : captures)
  (k : string -> captures -> option captures) (s : string) : option captures :=
  match r with
  | RLit l =>
      if starts_with l s
      then k (substring (String.length l) (String.length s - String.length l) s) cs
      else None
  | RChar p =>
      match s with
      | String c s' => if p c then k s' cs else None
      | EmptyString => None
      end
  | RStar p => star_match p (fun s' => k s' cs) s
  | RGroup n r1 =>
      re_match r1 cs
        (fun s' cs' =>
           k s' ((n, substring 0 (String.length s - String.length s') s) :: cs'))
        s
  | RSeq r1 r2 => re_match r1 cs (fun s1 cs1 => re_match r2 cs1 k s1) s
  | REnd =>
      if String.eqb s "" || String.eqb s (String "010"%char "") then k s cs
      else None
  end.

Definition accept : string -> captures -> option captures := fun _ cs => Some cs.

(** [pattern.match(s)]: anchored at the start. *)
Definition re_prefix_match (r : regex) (s : string) : option captures :=
  re_match r [] accept s.

(** [pattern.search(s)]: the first start position, from 0 to [len(s)],
    where the pattern matches. *)
Fixpoint re_search (r : regex) (s : string) : option captures :=
  match re_match r [] accept s with
  | Some cs => Some cs
  | None =>
      match s with
      | String _ s' => re_search r s'
      | EmptyString => None
      end
  end.

Fixpoint re_seq (rs : list regex) : regex :=
  match rs with
  | [] => RLit ""
  | [r] => r
  | r :: rs' => RSeq r (re_seq rs')
  end.

Definition any_but_newline (c : ascii) : bool := negb (Ascii.eqb c "010"%char).
Definition not_space (c : ascii) : bool := negb (is_space c).
Definition not_colon (c : ascii) : bool := negb (Ascii.eqb c ":"%char).
Definition not_quote (c : ascii) : bool := negb (Ascii.eqb c "'"%char).

Definition D : regex := RChar is_digit.
Definition DOTSTAR : regex := RStar any_but_newline.

(** [r'^(\d{4}-\d{2}-\d{2}T\d{2}:\d{2}:\d{2}\.\d+\+\d{2}:\d{2})'] *)
Definition timestamp_pattern : regex :=
  RGroup 1 (re_seq
    [D; D; D; D; RLit "-"; D; D; RLit "-"; D; D; RLit "T";
     D; D; RLit ":"; D; D; RLit ":"; D; D; RLit "."; RPlus is_digit;
     RLit "+"; D; D; RLit ":"; D; D]).

(** The source text of the pattern, then its embedding. *)
Definition upgrade_start_src : string := "Upgrading ([^\s]+) to version(.*)$".
Definition upgrade_start_pattern : regex :=
  re_seq [RLit "Upgrading "; RGroup 1 (RPlus not_space); RLit " to version";
          RGroup 2 DOTSTAR; REnd].

Definition upgrade_complete_src : string :=
  "Updating upgrade_info to gw ([^:]+): \{'status': 'complete'.*'curr_ver': '([^']*)'.*\}".
Definition upgrade_complete_pattern : regex :=
  re_seq [RLit "Updating upgrade_info to gw "; RGroup 1 (RPlus not_colon);
          RLit ": {'status': 'complete'"; DOTSTAR; RLit "'curr_ver': '";
          RGroup 2 (RStar not_quote); RLit "'"; DOTSTAR; RLit "}"].

Definition upgrade_installing_src : string :=
  "Updating upgrade_info to gw ([^:]+): \{'status': 'installing'.*\}".
Definition upgrade_installing_pattern : regex :=
  re_seq [RLit "Updating upgrade_info to gw "; RGroup 1 (RPlus not_colon);
          RLit ": {'status': 'installing'"; DOTSTAR; RLit "}"].

(** [r'Upgrading gateways without controller upgrade'] *)
Definition overall_start_pattern : regex :=
  RLit "Upgrading gateways without controller upgrade".

(** ** [UpgradeEvent] and the [LogParser] state *)

Record UpgradeEvent := mk_event {
  gateway_name : string;
  start_time : datetime;
  end_time : option datetime;
  version_info : string;
  status : string
}.

(** A Python dict keeps its keys in first-insertion order: assigning to an
    existing key replaces the value in place, a new key goes last. *)
Definition dict (V : Type) := list (string * V).

Fixpoint dict_get {V} (k : string) (d : dict V) : option V :=
  match d with
  | (k', v) :: d' => if String.eqb k k' then Some v else dict_get k d'
  | [] => None
  end.

Fixpoint dict_set {V} (k : string) (v : V) (d : dict V) : dict V :=
  match d with
  | (k', v') :: d' =>
      if String.eqb k k' then (k', v) :: d' else (k', v') :: dict_set k v d'
  | [] => [(k, v)]
  end.

Definition dict_values {V} (d : dict V) : list V := map snd d.
Definition dict_keys {V} (d : dict V) : list string := map fst d.

Record LogParser := mk_parser {
  upgrades : dict UpgradeEvent;
  overall_start_time : option datetime
}.

(** [LogParser()] *)
Definition LogParser_init : LogParser := mk_parser [] None.

Definition set_upgrades (p : LogParser) (d : dict UpgradeEvent) : LogParser :=
  mk_parser d (overall_start_time p).

(** [LogParser.parse_timestamp]: the anchored match, then [fromisoformat] on
    the text with [+00:00] rewritten to [+0000]; on [ValueError] the
    original text is parsed again, outside any [try]. *)
Definition parse_timestamp (line : string) : except (option datetime) :=
  match re_prefix_match timestamp_pattern line with
  | None => Ok None
  | Some cs =>
      let timestamp_str := match group 1 cs with Some s => s | None => "" end in
      match fromisoformat (str_replace "+00:00" "+0000" timestamp_str) with
      | Ok t => Ok (Some t)
      | Error ValueError => t <- fromisoformat timestamp_str ;; Ok (Some t)
      | Error e => Error e
      end
  end.

Definition group_or_empty (n : nat) (cs : captures) : string :=
  match group n cs with Some s => s | None => "" end.

(** [LogParser.parse_line] *)
Definition parse_line (line0 : string) (self : LogParser) : except LogParser :=
  let line := strip line0 in
  if String.eqb line "" then Ok self else
  ts <- parse_timestamp line ;;
  match ts with
  | None => Ok self
  | Some timestamp =>
  match re_search overall_start_pattern line with
  | Some _ => Ok (mk_parser [] (Some timestamp))
  | None =>
  match re_search upgrade_start_pattern line with
  | Some cs =>
      let gw := group_or_empty 1 cs in
      let version_info := strip (group_or_empty 2 cs) in
      Ok (set_upgrades self
            (dict_set gw (mk_event gw timestamp None version_info "in_progress")
               (upgrades self)))
  | None =>
  match re_search upgrade_installing_pattern line with
  | Some cs =>
      let gw := group_or_empty 1 cs in
      match dict_get gw (upgrades self) with
      | None =>
          Ok (set_upgrades self
                (dict_set gw (mk_event gw timestamp None
                                "(detected from installing status)" "in_progress")
                   (upgrades self)))
      | Some _ => Ok self
      end
  | None =>
  match re_search upgrade_complete_pattern line with
  | Some cs =>
      let gw := group_or_empty 1 cs in
      let curr_version := group_or_empty 2 cs in
      match dict_get gw (upgrades self) with
      | Some u =>
          if negb (String.eqb (status u) "complete") then
            Ok (set_upgrades self
                  (dict_set gw (mk_event (gateway_name u) (start_time u)
                                  (Some timestamp)
                                  (version_info u ++ " -> " ++ curr_version)
                                  "complete")
                     (upgrades self)))
          else Ok self
      | None =>
          Ok (set_upgrades self
                (dict_set gw (mk_event gw timestamp (Some timestamp)
                                ("(retroactive) -> " ++ curr_version) "complete")
                   (upgrades self)))
      end
  | None => Ok self
  end end end end end.

(** [sorted(xs, key=lambda x: x.start_time)]: Python's sort is stable; a
    stable insertion sort computes the same list. *)
Definition start_key (u : UpgradeEvent) : Z := instant (start_time u).

Fixpoint insert_by_start (x : UpgradeEvent) (l : list UpgradeEvent) : list UpgradeEvent :=
  match l with
  | [] => [x]
  | y :: l' => if start_key x <=? start_key y then x :: y :: l'
               else y :: insert_by_start x l'
  end.

Fixpoint sort_by_start (l : list UpgradeEvent) : list UpgradeEvent :=
  match l with
  | [] => []
  | x :: l' => insert_by_start x (sort_by_start l')
  end.

Fixpoint parse_all (lines : list string) (self : LogParser) : except LogParser :=
  match lines with
  | [] => Ok self
  | l :: ls => self' <- parse_line l self ;; parse_all ls self'
  end.

(** [LogParser.parse_logs]: the parser object after the loop, and the
    returned list. *)
Definition parse_logs (lines : list string) (self : LogParser)
  : except (LogParser * list UpgradeEvent) :=
  self' <- parse_all lines self ;;
  Ok (self', sort_by_start (dict_values (upgrades self'))).

(** ** [calculate_upgrade_stats] *)

Section StatsDefs.
Local Open Scope Q_scope.

(** Python's [/] on numbers: [ZeroDivisionError] on a zero divisor. *)
Definition py_div (a b : Q) : except Q :=
  if Qeq_bool b 0 then Error ZeroDivisionError else Ok (a / b).

Fixpoint mapM {A B} (f : A -> except B) (l : list A) : except (list B) :=
  match l with
  | [] => Ok []
  | x :: l' => y <- f x ;; ys <- mapM f l' ;; Ok (y :: ys)
  end.

Definition Qlt_bool (a b : Q) : bool := negb (Qle_bool b a).

(** [min(xs, key=k)] / [max(xs, key=k)] on a non-empty list [x :: xs]:
    the first least (greatest) element. *)
Definition py_min_by {A} (k : A -> Q) (x : A) (xs : list A) : A :=
  fold_left (fun acc y => if Qlt_bool (k y) (k acc) then y else acc) xs x.
Definition py_max_by {A} (k : A -> Q) (x : A) (xs : list A) : A :=
  fold_left (fun acc y => if Qlt_bool (k acc) (k y) then y else acc) xs x.

Definition Qsum (l : list Q) : Q := fold_left Qplus l 0.

Definition is_completed (u : UpgradeEvent) : bool :=
  match end_time u with Some _ => true | None => false end.

(** Upper bounds [buckets[1:]]; [None] is [float('inf')]. *)
Definition bucket_maxes : list (option Q) :=
  [Some 2; Some 5; Some 10; Some 15; Some 30; Some 60; None].
Definition bucket_labels : list string :=
  ["<2m"; "2-5m"; "5-10m"; "10-15m"; "15-30m"; "30-60m"; ">60m"].

Definition le_bucket (d : Q) (b : option Q) : bool :=
  match b with Some m => Qle_bool d m | None => true end.

Fixpoint incr_at (i : nat) (l : list Z) : list Z :=
  match i, l with
  | O, c :: l' => (c + 1)%Z :: l'
  | S i', c :: l' => c :: incr_at i' l'
  | _, [] => []
  end.

(** The inner loop: the first bucket whose bound is [>= duration] is
    incremented, then [break]. *)
Fixpoint bucket_step (d : Q) (i : nat) (bs : list (option Q)) (counts : list Z)
  : list Z :=
  match bs with
  | [] => counts
  | b :: bs' => if le_bucket d b then incr_at i counts
                else bucket_step d (S i) bs' counts
  end.

Definition bucket_counts (durations : list Q) : list Z :=
  fold_left (fun counts d => bucket_step d 0 bucket_maxes counts)
    durations (repeat 0%Z (List.length bucket_labels)).

Record Stats := mk_stats {
  st_total : Z; st_completed : Z; st_in_progress : Z;
  st_min : Q; st_min_gateway : string;
  st_max : Q; st_max_gateway : string;
  st_avg : Q;
  st_variance : Q;  (* the printed std deviation is [math.sqrt] of it *)
  st_distribution : list (string * Z * Q)  (* label, count, percentage *)
}.

(** What the function reports on its debug channel. *)
Inductive StatsReport :=
| NoCompletedUpgrades     (* "No completed upgrades found for statistics" *)
| Statistics (s : Stats).

Definition duration_minutes_of (u : UpgradeEvent) : except (string * Q) :=
  let e := match end_time u with Some e => e | None => start_time u end in
  duration_minutes <- py_div (total_seconds_between e (start_time u)) 60 ;;
  Ok (gateway_name u, duration_minutes).

Definition calculate_upgrade_stats (ups : list UpgradeEvent) : except StatsReport :=
  let completed_upgrades := filter is_completed ups in
  match completed_upgrades with
  | [] => Ok NoCompletedUpgrades
  | _ =>
    upgrade_durations <- mapM duration_minutes_of completed_upgrades ;;
    let durations := map snd upgrade_durations in
    let n := inject_Z (Z.of_nat (List.length durations)) in
    match upgrade_durations with
    | [] => Ok NoCompletedUpgrades
    | ud0 :: uds =>
      let min_duration := py_min_by (fun q => q) (snd ud0) (map snd uds) in
      let max_duration := py_max_by (fun q => q) (snd ud0) (map snd uds) in
      avg_duration <- py_div (Qsum durations) n ;;
      variance <- py_div (Qsum (map (fun d => (d - avg_duration) * (d - avg_duration))
                                   durations)) n ;;
      let min_gateway := py_min_by snd ud0 uds in
      let max_gateway := py_max_by snd ud0 uds in
      let counts := bucket_counts durations in
      distribution <- mapM (fun lc : string * Z =>
          let (label, count) := lc in
          pct <- (match durations with
                  | [] => Ok 0
                  | _ => q <- py_div (inject_Z count) n ;; Ok (q * 100)
                  end) ;;
          Ok (label, count, pct)) (combine bucket_labels counts) ;;
      Ok (Statistics (mk_stats
            (Z.of_nat (List.length ups)) (Z.of_nat (List.length completed_upgrades))
            (Z.of_nat (List.length ups) - Z.of_nat (List.length completed_upgrades))
            min_duration (fst min_gateway) max_duration (fst max_gateway)
            avg_duration variance distribution))
    end
  end.

End StatsDefs.

(** ** [SVGGanttChart.generate_chart]

    The scene: dimensions, time domain, axis ticks and one bar per upgrade.
    The SVG/CSS/JavaScript text around it and the tooltip text are not
    modelled. *)

Section ChartDefs.
Local Open Scope Q_scope.

Definition margin_top : Z := 60.
Definition margin_right : Z := 50.
Definition margin_bottom : Z := 80.
Definition margin_left : Z := 200.

Definition color_complete : string := "#28a745".
Definition color_in_progress : string := "#ffc107".

Record Bar := mk_bar {
  bar_label : string; bar_x : Q; bar_y : Q; bar_width : Q; bar_height : Z;
  bar_fill : string
}.

Record Tick := mk_tick { tick_x : Q; tick_time : datetime }.

Record Scene := mk_scene {
  sc_width : Z; sc_height : Z; sc_chart_width : Z; sc_chart_height : Z;
  sc_min_time : datetime; sc_max_time : datetime; sc_total_duration : Q;
  sc_ticks : list Tick; sc_bars : list Bar
}.

Inductive Chart :=
| EmptyChart                  (* [_create_empty_chart()] *)
| GanttChart (s : Scene).

(** [max(a, b)] on numbers: [a] unless [b > a]. *)
Definition py_max (a b : Q) : Q := if Qlt_bool a b then b else a.

(** [min(ts)] / [max(ts)] of datetimes, first least / greatest. *)
Definition dt_min (t : datetime) (ts : list datetime) : datetime :=
  fold_left (fun acc y => if dt_lt y acc then y else acc) ts t.
Definition dt_max (t : datetime) (ts : list datetime) : datetime :=
  fold_left (fun acc y => if dt_lt acc y then y else acc) ts t.

Fixpoint end_times_of (ups : list UpgradeEvent) : list datetime :=
  match ups with
  | [] => []
  | u :: us => match end_time u with
               | Some e => e :: end_times_of us
               | None => end_times_of us
               end
  end.

(** The time range, lines 254-266. *)
Definition time_range (u0 : UpgradeEvent) (us : list UpgradeEvent)
  : except (datetime * datetime) :=
  let start_times := map start_time us in
  match end_times_of (u0 :: us) with
  | [] =>
      let min_time := dt_min (start_time u0) start_times in
      let max_time := dt_max (start_time u0) start_times in
      if Qeq_bool (total_seconds_between max_time min_time) 0 then
        max_time' <- replace_second min_time (dt_second min_time + 60) ;;
        Ok (min_time, max_time')
      else Ok (min_time, max_time)
  | e0 :: es => Ok (dt_min (start_time u0) start_times, dt_max e0 es)
  end.

(** [_draw_time_axis]: 9 ticks. *)
Definition num_ticks : Z := 8.

Definition draw_time_axis (chart_width : Z) (min_time : datetime)
  (total_duration : Q) : except (list Tick) :=
  mapM (fun i : nat =>
      let f := inject_Z (Z.of_nat i) / inject_Z num_ticks in
      let x_pos := f * inject_Z chart_width in
      let time_offset := f * total_duration in
      base <- replace_microsecond min_time 0 ;;
      tick_time <- dt_add_usec base (round_half_even (time_offset * inject_Z 1000000)) ;;
      Ok (mk_tick x_pos tick_time))
    (seq 0 (S (Z.to_nat num_ticks))).

Definition display_name (name : string) : string :=
  if (25 <? String.length name)%nat then substring 0 22 name ++ "..." else name.

Definition draw_bar (min_time : datetime) (total_duration : Q) (chart_width : Z)
  (bar_h : Z) (y_step : Q) (i : nat) (u : UpgradeEvent) : except Bar :=
  let y_pos := inject_Z (Z.of_nat i) * y_step + (y_step - inject_Z bar_h) / 2 in
  let start_offset := total_seconds_between (start_time u) min_time in
  q <- py_div start_offset total_duration ;;
  let x_pos := q * inject_Z chart_width in
  match end_time u with
  | Some e =>
      let duration := total_seconds_between e (start_time u) in
      r <- py_div duration total_duration ;;
      Ok (mk_bar (display_name (gateway_name u)) x_pos y_pos
            (py_max 2 (r * inject_Z chart_width)) bar_h color_complete)
  | None =>
      Ok (mk_bar (display_name (gateway_name u)) x_pos y_pos
            (inject_Z chart_width - x_pos) bar_h color_in_progress)
  end.

Fixpoint draw_bars_from (i : nat) (min_time : datetime) (total_duration : Q)
  (chart_width bar_h : Z) (y_step : Q) (ups : list UpgradeEvent) : except (list Bar) :=
  match ups with
  | [] => Ok []
  | u :: us =>
      b <- draw_bar min_time total_duration chart_width bar_h y_step i u ;;
      bs <- draw_bars_from (S i) min_time total_duration chart_width bar_h y_step us ;;
      Ok (b :: bs)
  end.

Definition generate_chart (base_width base_height : Z) (ups : list UpgradeEvent)
  : except Chart :=
  match ups with
  | [] => Ok EmptyChart
  | u0 :: us =>
    let n := Z.of_nat (List.length ups) in
    let min_bar_height := 20%Z in
    let min_spacing := 2%Z in
    let total_bar_space := (n * (min_bar_height + min_spacing))%Z in
    let height := Z.max base_height
                    (total_bar_space + margin_top + margin_bottom + 100)%Z in
    let width := base_width in
    let chart_width := (width - margin_left - margin_right)%Z in
    let chart_height := (height - margin_top - margin_bottom)%Z in
    rng <- time_range u0 us ;;
    let (min_time, max_time) := rng in
    let td := total_seconds_between max_time min_time in
    let total_duration := if Qeq_bool td 0 then 3600 else td in
    ticks <- draw_time_axis chart_width min_time total_duration ;;
    let bar_h := Z.max min_bar_height (Z.min 25 (chart_height / n - 2))%Z in
    let y_step := py_max (inject_Z (bar_h + min_spacing))
                         (inject_Z chart_height / inject_Z n) in
    bars <- draw_bars_from 0 min_time total_duration chart_width bar_h y_step ups ;;
    Ok (GanttChart (mk_scene width height chart_width chart_height
                      min_time max_time total_duration ticks bars))
  end.

(** [SVGGanttChart()]: width 1200, height 800. *)
Definition generate_chart_default : list UpgradeEvent -> except Chart :=
  generate_chart 1200 800.

End ChartDefs.

(** ** [main] *)

(** What a run ends with: the help text (exit 0), the "No gateway upgrades
    found" message (exit 1), or the statistics on stderr and the chart on
    stdout (exit 0). *)
Inductive MainOutcome :=
| PrintHelp
| NoUpgradesFound
| PrintChart (stats : StatsReport) (chart : Chart).

Definition main_run (stdin : list string) : except MainOutcome :=
  r <- parse_logs stdin LogParser_init ;;
  match snd r with
  | [] => Ok NoUpgradesFound
  | upgrades =>
      stats <- calculate_upgrade_stats upgrades ;;
      chart <- generate_chart_default upgrades ;;
      Ok (PrintChart stats chart)
  end.

(** [main()]: [argv] includes the script name at index 0. *)
Definition main (argv : list string) (stdin : list string) : except MainOutcome :=
  match argv with
  | _ :: a1 :: _ =>
      if String.eqb a1 "-h" || String.eqb a1 "--help" then Ok PrintHelp
      else main_run stdin
  | _ => main_run stdin
  end.

(** ** Concrete inputs *)

(** The end-to-end example of the specification. *)
Definition example_start_line : string :=
  "2025-07-23T00:00:05.100000+00:00 Upgrading gw-1 to version 8.1.0-1000.1500".
Definition example_complete_line : string :=
  "2025-07-23T00:05:05.200000+00:00 Updating upgrade_info to gw gw-1: {'status': 'complete', 'curr_ver': '8.1.0-1000.1600', ...}".
Definition example_lines : list string := [example_start_line; example_complete_line].

(** A line with the digit shape of a timestamp but month 13. *)
Definition month13_line : string :=
  "2025-13-01T00:00:05.100000+00:00 Upgrading gw-1 to version 8.1.0-1000.1500".

(** A line with the digit shape of a timestamp but hour 99. *)
Definition hour99_line : string :=
  "2025-07-23T99:00:05.100000+00:00 Upgrading gw-1 to version 8.1.0-1000.1500".

(** A reset line. *)
Definition example_reset_line : string :=
  "2025-07-23T00:00:00.000000+00:00 Upgrading gateways without controller upgrade".

(** An installing status line for [gw-1]. *)
Definition example_installing_line : string :=
  "2025-07-23T00:00:06.300000+00:00 Updating upgrade_info to gw gw-1: {'status': 'installing', 'process_status': {'type': 'Software Upgrade', 'prev_status': 'pending', 'timestamp': None}}".

(** The start line of the example, indented by one space. *)
Definition indented_start_line : string := " " ++ example_start_line.

Definition t_0000 : datetime := mk_datetime 2025 7 23 0 0 0 0 0.
Definition t_0010 : datetime := mk_datetime 2025 7 23 0 10 0 0 0.

(** Two upgrades still in progress, started ten minutes apart. *)
Definition two_open_upgrades : list UpgradeEvent :=
  [mk_event "gw-a" t_0000 None "8.1.0" "in_progress";
   mk_event "gw-b" t_0010 None "8.1.0" "in_progress"].

Definition u_dummy : UpgradeEvent := mk_event "" t_0000 None "" "".

(** A single upgrade still in progress. *)
Definition one_open_upgrade : list UpgradeEvent :=
  [mk_event "gw-a" t_0000 None "8.1.0" "in_progress"].

(** ** Line classes, in the order [parse_line] tests them *)

(** A line that reaches the completion branch. *)
Definition completion_line (line : string) (ts : datetime) (cs : captures) : Prop :=
  parse_timestamp (strip line) = Ok (Some ts) /\
  re_search overall_start_pattern (strip line) = None /\
  re_search upgrade_start_pattern (strip line) = None /\
  re_search upgrade_installing_pattern (strip line) = None /\
  re_search upgrade_complete_pattern (strip line) = Some cs.

(** A line that reaches the installing branch. *)
Definition installing_line (line : string) (ts : datetime) (cs : captures) : Prop :=
  parse_timestamp (strip line) = Ok (Some ts) /\
  re_search overall_start_pattern (strip line) = None /\
  re_search upgrade_start_pattern (strip line) = None /\
  re_search upgrade_installing_pattern (strip line) = Some cs.

(** A line that reaches the reset branch. *)
Definition reset_line (line : string) (ts : datetime) : Prop :=
  parse_timestamp (strip line) = Ok (Some ts) /\
  re_search overall_start_pattern (strip line) <> None.

(** A line that reaches the explicit start branch. *)
Definition start_line (line : string) (ts : datetime) (cs : captures) : Prop :=
  parse_timestamp (strip line) = Ok (Some ts) /\
  re_search overall_start_pattern (strip line) = None /\
  re_search upgrade_start_pattern (strip line) = Some cs.

(** The state after the example's start line. *)
Definition example_state_after_start : LogParser :=
  match parse_line example_start_line LogParser_init with
  | Ok s => s
  | Error _ => LogParser_init
  end.

(** The state after both example lines. *)
Definition example_state_after_complete : LogParser :=
  match parse_line example_complete_line example_state_after_start with
  | Ok s => s
  | Error _ => LogParser_init
  end.

(** ** Further definitions for the properties below *)

(** A record's status and end time agree: ["complete"] with an end time,
    ["in_progress"] without one. *)
Definition consistent_event (u : UpgradeEvent) : Prop :=
  match end_time u with
  | Some _ => status u = "complete"
  | None => status u = "in_progress"
  end.

Definition dict_consistent (d : dict UpgradeEvent) : Prop :=
  Forall (fun kv => consistent_event (snd kv)) d.



(** One completed and one open upgrade. *)
Definition example_stats_input : list UpgradeEvent :=
  [mk_event "gw-1" t_0000 (Some t_0010) "v1 -> v2" "complete";
   mk_event "gw-2" t_0000 None "v1" "in_progress"].

(** How [generate_chart] draws upgrade [u] as bar [b] (lines 348-365):
    its label, its colour and its horizontal extent. *)
Definition bar_matches (cw : Z) (u : UpgradeEvent) (b : Bar) : Prop :=
  bar_label b = display_name (gateway_name u) /\
  match end_time u with
  | Some _ => bar_fill b = color_complete /\ (2 <= bar_width b)%Q
  | None => bar_fill b = color_in_progress /\ (bar_x b + bar_width b == inject_Z cw)%Q
  end.

Ltac installing_facts line :=
  destruct (parse_timestamp (strip line)) as [[?ts|]|?e] eqn:?Ets;
    [|vm_compute in Ets; discriminate..];
  destruct (re_search upgrade_installing_pattern (strip line))
    as [?cs|] eqn:?Ecs; [|vm_compute in Ecs; discriminate].

Ltac completion_facts line :=
  destruct (parse_timestamp (strip line)) as [[?ts|]|?e] eqn:?Ets;
    [|vm_compute in Ets; discriminate..];
  destruct (re_search upgrade_complete_pattern (strip line))
    as [?cs|] eqn:?Ecs; [|vm_compute in Ecs; discriminate].


(** ** Facts about the embedding *)

Lemma datetime_new_second_out_of_range :
  forall y mo d h mi s us off, 59 < s -> datetime_new y mo d h mi s us off = Error ValueError.
Proof.
  intros y mo d h mi s us off Hs. unfold datetime_new, in_range.
  replace (s <=? 59) with false by (symmetry; apply Z.leb_gt; lia).
  rewrite andb_false_r, andb_false_r, !andb_false_l. reflexivity.
Qed.

Lemma dt_min_in : forall ts t, In (dt_min t ts) (t :: ts).
Proof.
  unfold dt_min. induction ts as [|y ts IH]; intros t; simpl; [auto|].
  destruct (dt_lt y t).
  - specialize (IH y). simpl in IH. destruct IH; auto.
  - specialize (IH t). simpl in IH. destruct IH; auto.
Qed.

Lemma dt_max_in : forall ts t, In (dt_max t ts) (t :: ts).
Proof.
  unfold dt_max. induction ts as [|y ts IH]; intros t; simpl; [auto|].
  destruct (dt_lt t y).
  - specialize (IH y). simpl in IH. destruct IH; auto.
  - specialize (IH t). simpl in IH. destruct IH; auto.
Qed.

Lemma end_times_of_none : forall ups,
  Forall (fun u => end_time u = None) ups -> end_times_of ups = [].
Proof.
  induction 1 as [|u us Hu _ IH]; simpl; [reflexivity|]. rewrite Hu. exact IH.
Qed.

Lemma total_seconds_between_same : forall a b,
  instant a = instant b -> Qeq_bool (total_seconds_between a b) 0 = true.
Proof.
  intros a b H. unfold total_seconds_between. rewrite H, Z.sub_diag.
  reflexivity.
Qed.

(** C1 (ingest never raises; invalid dates are skipped).  The lines [month13_line] and [hour99_line] begin with the
    digit shape the timestamp pattern accepts, yet [parse_line] raises
    [ValueError] on them (from the unguarded second [fromisoformat] call),
    whatever the parser state: they are not skipped. *)
Theorem parse_line_invalid_timestamp_raises :
  forall self : LogParser,
    re_prefix_match timestamp_pattern month13_line <> None /\
    parse_line month13_line self = Error ValueError /\
    re_prefix_match timestamp_pattern hour99_line <> None /\
    parse_line hour99_line self = Error ValueError.
Proof.
  intros self. repeat split; vm_compute; try reflexivity; discriminate.
Qed.

(** C2 (a degenerate time domain never makes [generate_chart] fail).  When
    every record is still open and all start times are the same instant
    (for instance a single in-progress record), [generate_chart] raises
    [ValueError]: the one-minute buffer is built with
    [min_time.replace(second=min_time.second + 60)], a second out of
    0..59. *)
Theorem generate_chart_open_degenerate_raises :
  forall (w h : Z) (u0 : UpgradeEvent) (us : list UpgradeEvent),
    Forall (fun u => end_time u = None
                     /\ instant (start_time u) = instant (start_time u0)
                     /\ 0 <= dt_second (start_time u)) (u0 :: us) ->
    generate_chart w h (u0 :: us) = Error ValueError.
Proof.
  intros w h u0 us Hall.
  assert (Hrange : time_range u0 us = Error ValueError).
  { unfold time_range.
    rewrite end_times_of_none
      by (eapply Forall_impl; [|exact Hall]; simpl; tauto).
    set (mn := dt_min (start_time u0) (map start_time us)).
    set (mx := dt_max (start_time u0) (map start_time us)).
    assert (Hst : forall t, In t (start_time u0 :: map start_time us) ->
                   instant t = instant (start_time u0) /\ 0 <= dt_second t).
    { intros t Ht. change (start_time u0 :: map start_time us)
        with (map start_time (u0 :: us)) in Ht.
      apply in_map_iff in Ht as [u [<- Hu]].
      rewrite Forall_forall in Hall. destruct (Hall u Hu) as [_ [H1 H2]]. auto. }
    destruct (Hst mn (dt_min_in _ _)) as [Hmn Hsec].
    destruct (Hst mx (dt_max_in _ _)) as [Hmx _].
    rewrite total_seconds_between_same by congruence.
    unfold replace_second. rewrite datetime_new_second_out_of_range by lia.
    reflexivity. }
  unfold generate_chart. rewrite Hrange. reflexivity.
Qed.

Lemma generate_chart_open_degenerate_raises_witness :
  Forall (fun u => end_time u = None
                   /\ instant (start_time u) = instant (start_time (hd u_dummy one_open_upgrade))
                   /\ 0 <= dt_second (start_time u)) one_open_upgrade /\
  generate_chart 1200 800 one_open_upgrade = Error ValueError.
Proof.
  assert (HF : Forall (fun u => end_time u = None
                   /\ instant (start_time u) = instant (start_time (hd u_dummy one_open_upgrade))
                   /\ 0 <= dt_second (start_time u)) one_open_upgrade).
  { constructor; [vm_compute; split; [reflexivity|split; [reflexivity|discriminate]]|constructor]. }
  split; [exact HF|].
  exact (generate_chart_open_degenerate_raises 1200 800 _ [] HF).
Defined.

(** C3 (end-to-end example).  On the two example lines the pipeline
    yields one completed record [gw-1] whose duration is 300.1 seconds
    (00:00:05.1 to 00:05:05.2), i.e. 3001/600 minutes, counted in the
    ["5-10m"] bucket; its bar has the [complete] colour, starts at x = 0
    and is as wide as the chart area. *)
Theorem example_pipeline :
  exists p u e s sc b,
    parse_logs example_lines LogParser_init = Ok (p, [u]) /\
    gateway_name u = "gw-1" /\ status u = "complete" /\ end_time u = Some e /\
    (total_seconds_between e (start_time u) == 3001 # 10)%Q /\
    calculate_upgrade_stats [u] = Ok (Statistics s) /\
    (st_min s == 3001 # 600)%Q /\
    map fst (st_distribution s) =
      [("<2m", 0); ("2-5m", 0); ("5-10m", 1); ("10-15m", 0);
       ("15-30m", 0); ("30-60m", 0); (">60m", 0)] /\
    generate_chart_default [u] = Ok (GanttChart sc) /\
    sc_bars sc = [b] /\ bar_fill b = color_complete /\
    (bar_x b == 0)%Q /\ (bar_width b == inject_Z (sc_chart_width sc))%Q.
Proof.
  do 6 eexists.
  split; [vm_compute; reflexivity|].
  split; [reflexivity|]. split; [reflexivity|]. split; [reflexivity|].
  split; [vm_compute; reflexivity|].
  split; [vm_compute; reflexivity|].
  split; [vm_compute; reflexivity|].
  split; [vm_compute; reflexivity|].
  split; [vm_compute; reflexivity|].
  split; [vm_compute; reflexivity|].
  split; [reflexivity|].
  split; vm_compute; reflexivity.
Qed.

(** Counterexample to C3 as stated: the example's duration is not 300.0
    seconds. *)
Lemma example_duration_not_300 :
  ~ (exists p u e,
        parse_logs example_lines LogParser_init = Ok (p, [u]) /\
        end_time u = Some e /\
        (total_seconds_between e (start_time u) == 300)%Q).
Proof.
  intros [p [u [e [Hp [He Hd]]]]].
  vm_compute in Hp. injection Hp as _ Hu. subst u.
  simpl in He. injection He as <-.
  vm_compute in Hd. discriminate.
Qed.

(** Counterexample to C4 as stated: with two open upgrades started ten
    minutes apart, the chart's [max_time] is the later start time, not
    [min_time] plus one minute. *)
Lemma open_domain_max_not_min_plus_minute :
  match generate_chart_default two_open_upgrades with
  | Ok (GanttChart sc) =>
      instant (sc_min_time sc) = instant t_0000 /\
      instant (sc_max_time sc) = instant t_0010 /\
      instant (sc_max_time sc) <> instant (sc_min_time sc) + 60 * 1000000
  | _ => False
  end.
Proof.
  vm_compute. split; [reflexivity|]. split; [reflexivity|]. discriminate.
Qed.

Lemma dt_min_le : forall ts t x, In x (t :: ts) -> instant (dt_min t ts) <= instant x.
Proof.
  unfold dt_min, dt_lt.
  induction ts as [|y ts IH]; intros t x Hx; simpl in *.
  - destruct Hx as [<-|[]]. lia.
  - destruct (instant y <? instant t) eqn:E.
    + apply Z.ltb_lt in E.
      destruct Hx as [<-|Hx].
      * specialize (IH y y (or_introl eq_refl)). lia.
      * apply IH. exact Hx.
    + apply Z.ltb_ge in E.
      destruct Hx as [<-|[<-|Hx]].
      * apply IH. left. reflexivity.
      * specialize (IH t t (or_introl eq_refl)). lia.
      * apply IH. right. exact Hx.
Qed.

Lemma dt_max_ge : forall ts t x, In x (t :: ts) -> instant x <= instant (dt_max t ts).
Proof.
  unfold dt_max, dt_lt.
  induction ts as [|y ts IH]; intros t x Hx; simpl in *.
  - destruct Hx as [<-|[]]. lia.
  - destruct (instant t <? instant y) eqn:E.
    + apply Z.ltb_lt in E.
      destruct Hx as [<-|Hx].
      * specialize (IH y y (or_introl eq_refl)). lia.
      * apply IH. exact Hx.
    + apply Z.ltb_ge in E.
      destruct Hx as [<-|[<-|Hx]].
      * apply IH. left. reflexivity.
      * specialize (IH t t (or_introl eq_refl)). lia.
      * apply IH. right. exact Hx.
Qed.

Lemma total_seconds_between_zero : forall a b,
  Qeq_bool (total_seconds_between a b) 0 = true -> instant a = instant b.
Proof.
  intros a b H. apply Qeq_bool_iff in H.
  unfold total_seconds_between, Qdiv, Qeq in H. simpl in H. lia.
Qed.

Lemma generate_chart_time_range : forall w h u0 us mn mx sc,
  time_range u0 us = Ok (mn, mx) ->
  generate_chart w h (u0 :: us) = Ok (GanttChart sc) ->
  sc_min_time sc = mn /\ sc_max_time sc = mx.
Proof.
  intros w h u0 us mn mx sc Hr Hg.
  unfold generate_chart in Hg. rewrite Hr in Hg. cbn [bind] in Hg.
  destruct (draw_time_axis _ _ _) as [ticks|e]; cbn [bind] in Hg; [|discriminate].
  destruct (draw_bars_from _ _ _ _ _ _ _) as [bars|e]; cbn [bind] in Hg; [|discriminate].
  injection Hg as <-. split; reflexivity.
Qed.

(** C4 (time domain with no completed record), as the code has it.  When
    no record has an [end_time] and the start times are not all the same
    instant, [min_time] is a least and [max_time] a greatest start time
    (both taken among the records' start times), and these are the bounds
    of any chart [generate_chart] produces. *)
Theorem time_range_all_open :
  forall u0 us,
    Forall (fun u => end_time u = None) (u0 :: us) ->
    (exists u, In u us /\ instant (start_time u) <> instant (start_time u0)) ->
    exists mn mx,
      time_range u0 us = Ok (mn, mx) /\
      In mn (map start_time (u0 :: us)) /\
      (forall u, In u (u0 :: us) -> instant mn <= instant (start_time u)) /\
      In mx (map start_time (u0 :: us)) /\
      (forall u, In u (u0 :: us) -> instant (start_time u) <= instant mx) /\
      (forall w h sc, generate_chart w h (u0 :: us) = Ok (GanttChart sc) ->
                      sc_min_time sc = mn /\ sc_max_time sc = mx).
Proof.
  intros u0 us Hopen [v [Hv Hne]].
  set (mn := dt_min (start_time u0) (map start_time us)).
  set (mx := dt_max (start_time u0) (map start_time us)).
  assert (Hmn : forall u, In u (u0 :: us) -> instant mn <= instant (start_time u)).
  { intros u Hu. apply dt_min_le.
    change (start_time u0 :: map start_time us) with (map start_time (u0 :: us)).
    apply in_map. exact Hu. }
  assert (Hmx : forall u, In u (u0 :: us) -> instant (start_time u) <= instant mx).
  { intros u Hu. apply dt_max_ge.
    change (start_time u0 :: map start_time us) with (map start_time (u0 :: us)).
    apply in_map. exact Hu. }
  assert (Hr : time_range u0 us = Ok (mn, mx)).
  { unfold time_range. rewrite end_times_of_none by exact Hopen.
    fold mn mx.
    destruct (Qeq_bool (total_seconds_between mx mn) 0) eqn:E; [|reflexivity].
    apply total_seconds_between_zero in E.
    pose proof (Hmn u0 (or_introl eq_refl)). pose proof (Hmx u0 (or_introl eq_refl)).
    pose proof (Hmn v (or_intror Hv)). pose proof (Hmx v (or_intror Hv)).
    lia. }
  exists mn, mx. split; [exact Hr|].
  split; [apply dt_min_in|]. split; [exact Hmn|].
  split; [apply dt_max_in|]. split; [exact Hmx|].
  intros w h sc Hg. exact (generate_chart_time_range w h u0 us mn mx sc Hr Hg).
Qed.

Lemma time_range_all_open_witness :
  exists mn mx,
    time_range (hd u_dummy two_open_upgrades) (tl two_open_upgrades) = Ok (mn, mx) /\
    In mn (map start_time two_open_upgrades) /\
    (forall u, In u two_open_upgrades -> instant mn <= instant (start_time u)) /\
    In mx (map start_time two_open_upgrades) /\
    (forall u, In u two_open_upgrades -> instant (start_time u) <= instant mx) /\
    (forall w h sc, generate_chart w h two_open_upgrades = Ok (GanttChart sc) ->
                    sc_min_time sc = mn /\ sc_max_time sc = mx).
Proof.
  apply (time_range_all_open (hd u_dummy two_open_upgrades) (tl two_open_upgrades)).
  - repeat constructor.
  - exists (mk_event "gw-b" t_0010 None "8.1.0" "in_progress").
    split; [left; reflexivity | vm_compute; discriminate].
Defined.

(** *** Sorting *)

Definition start_le (a b : UpgradeEvent) : Prop := start_key a <= start_key b.

Lemma insert_by_start_perm : forall x l, Permutation (insert_by_start x l) (x :: l).
Proof.
  intros x l. induction l as [|y l IH]; simpl; [reflexivity|].
  destruct (start_key x <=? start_key y); [reflexivity|].
  rewrite IH. apply perm_swap.
Qed.

Lemma sort_by_start_perm : forall l, Permutation (sort_by_start l) l.
Proof.
  induction l as [|x l IH]; simpl; [reflexivity|].
  rewrite insert_by_start_perm. apply perm_skip. exact IH.
Qed.

Lemma insert_by_start_sorted : forall x l,
  Sorted start_le l -> Sorted start_le (insert_by_start x l).
Proof.
  intros x l. induction l as [|y l IH]; intros Hs; simpl.
  - constructor; constructor.
  - destruct (start_key x <=? start_key y) eqn:E.
    + apply Z.leb_le in E. constructor; [exact Hs|constructor; exact E].
    + apply Z.leb_gt in E. apply Sorted_inv in Hs as [Hl Hhd].
      constructor; [apply IH; exact Hl|].
      destruct l as [|z l]; simpl.
      * constructor. unfold start_le. lia.
      * destruct (start_key x <=? start_key z); constructor; unfold start_le.
        -- lia.
        -- inversion Hhd; assumption.
Qed.

Lemma sort_by_start_sorted : forall l, Sorted start_le (sort_by_start l).
Proof.
  induction l as [|x l IH]; simpl; [constructor|].
  apply insert_by_start_sorted. exact IH.
Qed.

Lemma insert_by_start_filter : forall t x l,
  filter (fun u => start_key u =? t) (insert_by_start x l) =
  filter (fun u => start_key u =? t) (x :: l).
Proof.
  intros t x l. induction l as [|y l IH]; simpl; [reflexivity|].
  destruct (start_key x <=? start_key y) eqn:E; [reflexivity|].
  apply Z.leb_gt in E. simpl. rewrite IH. simpl.
  destruct (start_key x =? t) eqn:Ex, (start_key y =? t) eqn:Ey; try reflexivity.
  apply Z.eqb_eq in Ex, Ey. lia.
Qed.

Lemma sort_by_start_stable : forall t l,
  filter (fun u => start_key u =? t) (sort_by_start l) =
  filter (fun u => start_key u =? t) l.
Proof.
  intros t. induction l as [|x l IH]; simpl; [reflexivity|].
  rewrite insert_by_start_filter. simpl. rewrite IH. reflexivity.
Qed.

(** *** The dict of upgrades: unique keys, each record filed under its own
    gateway name. *)

Definition dict_wf (d : dict UpgradeEvent) : Prop :=
  NoDup (dict_keys d) /\ Forall (fun kv => gateway_name (snd kv) = fst kv) d.

Lemma dict_keys_set : forall {V} k (v : V) d,
  dict_keys (dict_set k v d) =
  if existsb (String.eqb k) (dict_keys d) then dict_keys d else (dict_keys d ++ [k])%list.
Proof.
  intros V k v d. induction d as [|[k' v'] d IH]; simpl; [reflexivity|].
  destruct (String.eqb k k') eqn:E; simpl; [reflexivity|].
  rewrite IH. destruct (existsb _ _); reflexivity.
Qed.

Lemma dict_set_wf : forall k v d,
  gateway_name v = k -> dict_wf d -> dict_wf (dict_set k v d).
Proof.
  intros k v d Hv [Hnd Hf]. split.
  - rewrite dict_keys_set. destruct (existsb (String.eqb k) (dict_keys d)) eqn:E.
    + exact Hnd.
    + assert (Hk : ~ In k (dict_keys d)).
      { intros Hin. assert (existsb (String.eqb k) (dict_keys d) = true) as Hc.
        { apply existsb_exists. exists k. split; [exact Hin|apply String.eqb_refl]. }
        congruence. }
      apply Permutation_NoDup with (l := k :: dict_keys d).
      * apply Permutation_cons_append.
      * constructor; assumption.
  - clear Hnd. induction Hf as [|[k' v'] d Hkv Hf IH]; simpl.
    + constructor; [exact Hv|constructor].
    + destruct (String.eqb k k') eqn:E.
      * apply String.eqb_eq in E. subst k'. constructor; [exact Hv|exact Hf].
      * constructor; [exact Hkv|exact IH].
Qed.

Lemma dict_get_wf : forall k u d,
  dict_wf d -> dict_get k d = Some u -> gateway_name u = k.
Proof.
  intros k u d [_ Hf]. induction Hf as [|[k' v'] d Hkv Hf IH]; simpl; [discriminate|].
  destruct (String.eqb k k') eqn:E.
  - intros H. injection H as <-. apply String.eqb_eq in E. simpl in Hkv. congruence.
  - exact IH.
Qed.

Lemma dict_wf_empty : dict_wf [].
Proof. split; constructor. Qed.

Lemma parse_line_wf : forall line self self',
  dict_wf (upgrades self) -> parse_line line self = Ok self' ->
  dict_wf (upgrades self').
Proof.
  intros line self self' Hwf H. unfold parse_line in H. cbv zeta in H.
  destruct (String.eqb (strip line) ""); [injection H as <-; exact Hwf|].
  destruct (parse_timestamp (strip line)) as [[ts|]|e]; cbn [bind] in H;
    [|injection H as <-; exact Hwf|discriminate].
  destruct (re_search overall_start_pattern _);
    [injection H as <-; apply dict_wf_empty|].
  destruct (re_search upgrade_start_pattern _) as [cs|].
  { injection H as <-. apply dict_set_wf; [reflexivity|exact Hwf]. }
  destruct (re_search upgrade_installing_pattern _) as [cs|].
  { destruct (dict_get _ _); injection H as <-; [exact Hwf|].
    apply dict_set_wf; [reflexivity|exact Hwf]. }
  destruct (re_search upgrade_complete_pattern _) as [cs|];
    [|injection H as <-; exact Hwf].
  destruct (dict_get (group_or_empty 1 cs) (upgrades self)) as [u|] eqn:Eg.
  - destruct (negb _); injection H as <-; [|exact Hwf].
    apply dict_set_wf; [|exact Hwf]. simpl. eapply dict_get_wf; eauto.
  - injection H as <-. apply dict_set_wf; [reflexivity|exact Hwf].
Qed.

Lemma parse_all_wf : forall lines self self',
  dict_wf (upgrades self) -> parse_all lines self = Ok self' ->
  dict_wf (upgrades self').
Proof.
  induction lines as [|l ls IH]; intros self self' Hwf H; simpl in H.
  - injection H as <-. exact Hwf.
  - destruct (parse_line l self) as [s1|e] eqn:E; simpl in H; [|discriminate].
    apply (IH s1); [eapply parse_line_wf; eauto|exact H].
Qed.

Lemma dict_wf_names : forall d,
  dict_wf d -> map gateway_name (dict_values d) = dict_keys d.
Proof.
  intros d [_ Hf]. unfold dict_values, dict_keys. rewrite map_map.
  induction Hf as [|[k v] d Hkv _ IH]; simpl; [reflexivity|].
  simpl in Hkv. rewrite Hkv, IH. reflexivity.
Qed.

(** C5 (output order of [parse_logs]).  For every input on which
    [parse_logs] returns, the list it returns is sorted by start time;
    records with the same start time keep the dict's insertion order
    (stable sort); it is a permutation of the records held by the parser;
    it has one record per unit id, and its ids are exactly the dict's keys. *)
Theorem parse_logs_sorted_permutation :
  forall lines p out,
    parse_logs lines LogParser_init = Ok (p, out) ->
    Sorted start_le out /\
    (forall t, filter (fun u => start_key u =? t) out =
               filter (fun u => start_key u =? t) (dict_values (upgrades p))) /\
    Permutation out (dict_values (upgrades p)) /\
    NoDup (map gateway_name out) /\
    Permutation (map gateway_name out) (dict_keys (upgrades p)).
Proof.
  intros lines p out H. unfold parse_logs in H.
  destruct (parse_all lines LogParser_init) as [p'|e] eqn:E; simpl in H;
    [|discriminate].
  injection H as <- <-.
  assert (Hwf : dict_wf (upgrades p')) by (apply (parse_all_wf lines LogParser_init); [apply dict_wf_empty|exact E]).
  pose proof (sort_by_start_perm (dict_values (upgrades p'))) as Hp.
  assert (Hk : Permutation (map gateway_name (sort_by_start (dict_values (upgrades p'))))
                           (dict_keys (upgrades p'))).
  { rewrite <- dict_wf_names by exact Hwf. apply Permutation_map. exact Hp. }
  split; [apply sort_by_start_sorted|].
  split; [intros t; apply sort_by_start_stable|].
  split; [exact Hp|].
  split; [|exact Hk].
  apply Permutation_NoDup with (l := dict_keys (upgrades p')).
  - symmetry. exact Hk.
  - apply Hwf.
Qed.

Lemma parse_logs_sorted_permutation_witness :
  exists p out,
    parse_logs example_lines LogParser_init = Ok (p, out) /\
    Sorted start_le out /\
    (forall t, filter (fun u => start_key u =? t) out =
               filter (fun u => start_key u =? t) (dict_values (upgrades p))) /\
    Permutation out (dict_values (upgrades p)) /\
    NoDup (map gateway_name out) /\
    Permutation (map gateway_name out) (dict_keys (upgrades p)).
Proof.
  destruct (parse_logs example_lines LogParser_init) as [[p out]|e] eqn:E.
  - exists p, out. split; [reflexivity|].
    exact (parse_logs_sorted_permutation example_lines p out E).
  - vm_compute in E. discriminate.
Defined.

(** *** Single lines *)

Lemma parse_timestamp_empty : parse_timestamp "" = Ok None.
Proof. reflexivity. Qed.

Lemma timestamped_line_nonempty : forall line ts,
  parse_timestamp (strip line) = Ok (Some ts) -> String.eqb (strip line) "" = false.
Proof.
  intros line ts H. destruct (String.eqb (strip line) "") eqn:E; [|reflexivity].
  apply String.eqb_eq in E. rewrite E, parse_timestamp_empty in H. discriminate.
Qed.

Lemma dict_get_set_same : forall {V} k (v : V) d, dict_get k (dict_set k v d) = Some v.
Proof.
  intros V k v d. induction d as [|[k' v'] d IH]; simpl.
  - rewrite String.eqb_refl. reflexivity.
  - destruct (String.eqb k k') eqn:E; simpl; rewrite E; [reflexivity|exact IH].
Qed.

(** [parse_line] on a completion line, as the branch of lines 175-199. *)
Lemma parse_line_completion : forall line ts cs self,
  completion_line line ts cs ->
  parse_line line self =
    (let gw := group_or_empty 1 cs in
     let curr_version := group_or_empty 2 cs in
     match dict_get gw (upgrades self) with
     | Some u =>
         if negb (String.eqb (status u) "complete") then
           Ok (set_upgrades self
                 (dict_set gw (mk_event (gateway_name u) (start_time u) (Some ts)
                                 (version_info u ++ " -> " ++ curr_version) "complete")
                    (upgrades self)))
         else Ok self
     | None =>
         Ok (set_upgrades self
               (dict_set gw (mk_event gw ts (Some ts)
                               ("(retroactive) -> " ++ curr_version) "complete")
                  (upgrades self)))
     end).
Proof.
  intros line ts cs self (Hts & Ho & Hs & Hi & Hc).
  unfold parse_line. cbv zeta.
  rewrite (timestamped_line_nonempty line ts Hts), Hts. cbn [bind].
  rewrite Ho, Hs, Hi, Hc. reflexivity.
Qed.



(** C7 (retroactive record).  A completion line for a gateway with no
    record creates its record with [start_time] and [end_time] both the
    line's timestamp, status ["complete"] and a version note that starts
    with ["(retroactive)"]. *)
Theorem completion_without_record_retroactive : forall line ts cs self,
  completion_line line ts cs ->
  dict_get (group_or_empty 1 cs) (upgrades self) = None ->
  exists self',
    parse_line line self = Ok self' /\
    dict_get (group_or_empty 1 cs) (upgrades self') =
      Some (mk_event (group_or_empty 1 cs) ts (Some ts)
              ("(retroactive) -> " ++ group_or_empty 2 cs) "complete").
Proof.
  intros line ts cs self Hc Hnone.
  rewrite (parse_line_completion line ts cs self Hc). cbv zeta.
  rewrite Hnone. eexists. split; [reflexivity|].
  simpl. apply dict_get_set_same.
Qed.

Lemma completion_without_record_retroactive_witness :
  exists ts cs self',
    completion_line example_complete_line ts cs /\
    dict_get (group_or_empty 1 cs) (upgrades LogParser_init) = None /\
    parse_line example_complete_line LogParser_init = Ok self' /\
    dict_get (group_or_empty 1 cs) (upgrades self') =
      Some (mk_event (group_or_empty 1 cs) ts (Some ts)
              ("(retroactive) -> " ++ group_or_empty 2 cs) "complete").
Proof.
  destruct (parse_timestamp (strip example_complete_line)) as [[ts|]|e] eqn:Ets;
    [|vm_compute in Ets; discriminate..].
  destruct (re_search upgrade_complete_pattern (strip example_complete_line))
    as [cs|] eqn:Ecs; [|vm_compute in Ecs; discriminate].
  assert (Hc : completion_line example_complete_line ts cs).
  { split; [exact Ets|]. split; [vm_compute; reflexivity|].
    split; [vm_compute; reflexivity|]. split; [vm_compute; reflexivity|].
    exact Ecs. }
  assert (Hn : dict_get (group_or_empty 1 cs) (upgrades LogParser_init) = None)
    by reflexivity.
  destruct (completion_without_record_retroactive example_complete_line ts cs
              LogParser_init Hc Hn) as [s' [H1 H2]].
  exists ts, cs, s'. repeat split; assumption.
Defined.

(** C8 (reset).  A reset line empties the dict of upgrades and records its
    timestamp as the overall start time; a start line after it leaves
    exactly one record, whatever the parser held before. *)
Theorem reset_then_start_single_record : forall line1 ts1 line2 ts2 cs2 self,
  reset_line line1 ts1 ->
  start_line line2 ts2 cs2 ->
  exists self1 self2,
    parse_line line1 self = Ok self1 /\
    upgrades self1 = [] /\ overall_start_time self1 = Some ts1 /\
    parse_line line2 self1 = Ok self2 /\
    List.length (upgrades self2) = 1%nat.
Proof.
  intros line1 ts1 line2 ts2 cs2 self [Hts1 Hr1] (Hts2 & Ho2 & Hs2).
  assert (E1 : parse_line line1 self = Ok (mk_parser [] (Some ts1))).
  { unfold parse_line. cbv zeta.
    rewrite (timestamped_line_nonempty line1 ts1 Hts1), Hts1. cbn [bind].
    destruct (re_search overall_start_pattern (strip line1)); [reflexivity|].
    exfalso. apply Hr1. reflexivity. }
  exists (mk_parser [] (Some ts1)).
  eexists. split; [exact E1|]. split; [reflexivity|]. split; [reflexivity|].
  split.
  - unfold parse_line. cbv zeta.
    rewrite (timestamped_line_nonempty line2 ts2 Hts2), Hts2. cbn [bind].
    rewrite Ho2, Hs2. reflexivity.
  - reflexivity.
Qed.

Lemma reset_then_start_single_record_witness :
  exists ts1 ts2 cs2 self1 self2,
    reset_line example_reset_line ts1 /\
    start_line example_start_line ts2 cs2 /\
    parse_line example_reset_line example_state_after_start = Ok self1 /\
    upgrades self1 = [] /\ overall_start_time self1 = Some ts1 /\
    parse_line example_start_line self1 = Ok self2 /\
    List.length (upgrades self2) = 1%nat.
Proof.
  destruct (parse_timestamp (strip example_reset_line)) as [[ts1|]|e] eqn:E1;
    [|vm_compute in E1; discriminate..].
  destruct (parse_timestamp (strip example_start_line)) as [[ts2|]|e] eqn:E2;
    [|vm_compute in E2; discriminate..].
  destruct (re_search upgrade_start_pattern (strip example_start_line))
    as [cs2|] eqn:Ecs; [|vm_compute in Ecs; discriminate].
  assert (Hr : reset_line example_reset_line ts1).
  { split; [exact E1|]. vm_compute. discriminate. }
  assert (Hs : start_line example_start_line ts2 cs2).
  { split; [exact E2|]. split; [vm_compute; reflexivity|exact Ecs]. }
  destruct (reset_then_start_single_record example_reset_line ts1
              example_start_line ts2 cs2 example_state_after_start Hr Hs)
    as [s1 [s2 (Ha & Hb & Hc & Hd & He)]].
  exists ts1, ts2, cs2, s1, s2.
  split; [exact Hr|]. split; [exact Hs|]. split; [exact Ha|].
  split; [exact Hb|]. split; [exact Hc|]. split; [exact Hd|exact He].
Defined.

(** Counterexample to C9 as stated: [indented_start_line] does not begin
    with a timestamp (its first character is a space), yet [parse_line]
    strips it and records an upgrade. *)
Lemma indented_line_changes_state :
  re_prefix_match timestamp_pattern indented_start_line = None /\
  parse_line indented_start_line LogParser_init <> Ok LogParser_init.
Proof.
  split; [vm_compute; reflexivity|]. vm_compute. discriminate.
Qed.

(** C9 (lines without a leading timestamp), as the code has it.  A line
    whose text after [str.strip()] does not begin with the timestamp
    pattern leaves the parser state (dict of upgrades and overall start
    time) unchanged. *)
Theorem untimestamped_line_no_effect : forall line self,
  re_prefix_match timestamp_pattern (strip line) = None ->
  parse_line line self = Ok self.
Proof.
  intros line self H. unfold parse_line. cbv zeta.
  destruct (String.eqb (strip line) ""); [reflexivity|].
  unfold parse_timestamp. rewrite H. reflexivity.
Qed.

Lemma untimestamped_line_no_effect_witness :
  re_prefix_match timestamp_pattern (strip "Upgrading gw-1 to version 8.1.0") = None /\
  parse_line "Upgrading gw-1 to version 8.1.0" example_state_after_start
    = Ok example_state_after_start.
Proof.
  assert (H : re_prefix_match timestamp_pattern (strip "Upgrading gw-1 to version 8.1.0") = None)
    by (vm_compute; reflexivity).
  split; [exact H|].
  exact (untimestamped_line_no_effect _ example_state_after_start H).
Defined.

(** *** Statistics *)

Lemma py_div_nonzero : forall a b, Qeq_bool b 0 = false -> py_div a b = Ok (a / b)%Q.
Proof. intros a b H. unfold py_div. rewrite H. reflexivity. Qed.

Lemma mapM_total : forall {A B} (f : A -> except B) l,
  (forall x, In x l -> exists y, f x = Ok y) ->
  exists ys, mapM f l = Ok ys /\ List.length ys = List.length l.
Proof.
  intros A B f l. induction l as [|x l IH]; intros Hf; simpl.
  - exists []. split; reflexivity.
  - destruct (Hf x (or_introl eq_refl)) as [y Hy]. rewrite Hy. simpl.
    destruct IH as [ys [Hys Hlen]]; [intros z Hz; apply Hf; right; exact Hz|].
    rewrite Hys. exists (y :: ys). split; [reflexivity|simpl; congruence].
Qed.

Lemma length_pos_nonzero : forall {A} (x : A) l,
  Qeq_bool (inject_Z (Z.of_nat (List.length (x :: l)))) 0 = false.
Proof. intros A x l. reflexivity. Qed.

(** C10 (statistics with no completed upgrade).  When no record has an
    [end_time], [calculate_upgrade_stats] reports that no completed upgrade
    was found and computes nothing else; and on no input does it raise
    (in particular no [ZeroDivisionError]). *)
Theorem stats_without_completions : forall ups,
  (filter is_completed ups = [] ->
   calculate_upgrade_stats ups = Ok NoCompletedUpgrades) /\
  (forall e, calculate_upgrade_stats ups <> Error e).
Proof.
  intros ups. split.
  - intros H. unfold calculate_upgrade_stats. rewrite H. reflexivity.
  - intros e. unfold calculate_upgrade_stats. cbv zeta.
    destruct (filter is_completed ups) as [|c cs] eqn:Ef; [discriminate|].
    destruct (mapM_total duration_minutes_of (c :: cs)) as [uds [Hm Hlen]].
    { intros x _. unfold duration_minutes_of.
      rewrite py_div_nonzero by reflexivity. eexists. reflexivity. }
    rewrite Hm. cbn [bind].
    destruct uds as [|ud0 uds]; [discriminate|].
    set (n := inject_Z (Z.of_nat (List.length (map snd (ud0 :: uds))))).
    assert (Hn : Qeq_bool n 0 = false) by apply length_pos_nonzero.
    rewrite (py_div_nonzero _ n Hn). cbn [bind].
    rewrite (py_div_nonzero _ n Hn). cbn [bind].
    destruct (mapM_total (fun lc : string * Z =>
        let (label, count) := lc in
        pct <- (match map snd (ud0 :: uds) with
                | [] => Ok 0%Q
                | _ => q <- py_div (inject_Z count) n ;; Ok (q * 100)%Q
                end) ;;
        Ok (label, count, pct))
        (combine bucket_labels (bucket_counts (map snd (ud0 :: uds)))))
      as [dist [Hd _]].
    { intros [label count] _. simpl. eexists. reflexivity. }
    rewrite Hd. discriminate.
Qed.

Lemma stats_without_completions_witness :
  (filter is_completed one_open_upgrade = [] ->
   calculate_upgrade_stats one_open_upgrade = Ok NoCompletedUpgrades) /\
  (forall e, calculate_upgrade_stats one_open_upgrade <> Error e) /\
  filter is_completed one_open_upgrade = [] /\
  calculate_upgrade_stats one_open_upgrade = Ok NoCompletedUpgrades.
Proof.
  destruct (stats_without_completions one_open_upgrade) as [H1 H2].
  assert (Hf : filter is_completed one_open_upgrade = []) by reflexivity.
  split; [exact H1|]. split; [exact H2|]. split; [exact Hf|]. exact (H1 Hf).
Defined.

(** ** Further properties of the parser *)

Lemma dict_get_set_other : forall {V} k k' (v : V) d,
  k <> k' -> dict_get k (dict_set k' v d) = dict_get k d.
Proof.
  intros V k k' v d Hne. induction d as [|[k2 v2] d IH]; simpl.
  - destruct (String.eqb k k') eqn:E; [apply String.eqb_eq in E; contradiction|reflexivity].
  - destruct (String.eqb k' k2) eqn:E2; simpl.
    + apply String.eqb_eq in E2. subst k2.
      destruct (String.eqb k k') eqn:E; [apply String.eqb_eq in E; contradiction|reflexivity].
    + destruct (String.eqb k k2); [reflexivity|exact IH].
Qed.

Lemma dict_get_existsb : forall {V} k (d : dict V),
  existsb (String.eqb k) (dict_keys d) = match dict_get k d with Some _ => true | None => false end.
Proof.
  intros V k d. induction d as [|[k' v'] d IH]; simpl; [reflexivity|].
  destruct (String.eqb k k'); [reflexivity|exact IH].
Qed.

Lemma dict_keys_set_present : forall {V} k (v : V) d,
  dict_get k d <> None -> dict_keys (dict_set k v d) = dict_keys d.
Proof.
  intros V k v d H. rewrite dict_keys_set, dict_get_existsb.
  destruct (dict_get k d); [reflexivity|contradiction].
Qed.

Lemma dict_keys_set_absent : forall {V} k (v : V) d,
  dict_get k d = None -> dict_keys (dict_set k v d) = (dict_keys d ++ [k])%list.
Proof.
  intros V k v d H. rewrite dict_keys_set, dict_get_existsb, H. reflexivity.
Qed.

(** [parse_line] on an installing line, as the branch of lines 160-173. *)
Lemma parse_line_installing : forall line ts cs self,
  installing_line line ts cs ->
  parse_line line self =
    match dict_get (group_or_empty 1 cs) (upgrades self) with
    | None =>
        Ok (set_upgrades self
              (dict_set (group_or_empty 1 cs)
                 (mk_event (group_or_empty 1 cs) ts None
                    "(detected from installing status)" "in_progress")
                 (upgrades self)))
    | Some _ => Ok self
    end.
Proof.
  intros line ts cs self (Hts & Ho & Hs & Hi).
  unfold parse_line. cbv zeta.
  rewrite (timestamped_line_nonempty line ts Hts), Hts. cbn [bind].
  rewrite Ho, Hs, Hi. reflexivity.
Qed.

(** [parse_line] on an explicit start line, as the branch of lines 146-158. *)
Lemma parse_line_start : forall line ts cs self,
  start_line line ts cs ->
  parse_line line self =
    Ok (set_upgrades self
          (dict_set (group_or_empty 1 cs)
             (mk_event (group_or_empty 1 cs) ts None (strip (group_or_empty 2 cs))
                "in_progress")
             (upgrades self))).
Proof.
  intros line ts cs self (Hts & Ho & Hs).
  unfold parse_line. cbv zeta.
  rewrite (timestamped_line_nonempty line ts Hts), Hts. cbn [bind].
  rewrite Ho, Hs. reflexivity.
Qed.

(** X1: an installing line for a gateway that already has a record changes
    nothing (its start time is not reset). *)
Theorem installing_known_gateway_noop : forall line ts cs self,
  installing_line line ts cs ->
  dict_get (group_or_empty 1 cs) (upgrades self) <> None ->
  parse_line line self = Ok self.
Proof.
  intros line ts cs self Hl Hk. rewrite (parse_line_installing line ts cs self Hl).
  destruct (dict_get _ _); [reflexivity|contradiction].
Qed.

(** X2: an installing line for an unknown gateway appends one in-progress
    record for it, started at the line's timestamp, and leaves the other
    records as they were. *)
Theorem installing_new_gateway_appends : forall line ts cs self,
  installing_line line ts cs ->
  dict_get (group_or_empty 1 cs) (upgrades self) = None ->
  exists self',
    parse_line line self = Ok self' /\
    dict_get (group_or_empty 1 cs) (upgrades self') =
      Some (mk_event (group_or_empty 1 cs) ts None
              "(detected from installing status)" "in_progress") /\
    dict_keys (upgrades self') = (dict_keys (upgrades self) ++ [group_or_empty 1 cs])%list /\
    (forall k, k <> group_or_empty 1 cs ->
               dict_get k (upgrades self') = dict_get k (upgrades self)) /\
    overall_start_time self' = overall_start_time self.
Proof.
  intros line ts cs self Hl Hn. rewrite (parse_line_installing line ts cs self Hl), Hn.
  eexists. split; [reflexivity|]. simpl.
  split; [apply dict_get_set_same|].
  split; [apply dict_keys_set_absent; exact Hn|].
  split; [intros k Hk; apply dict_get_set_other; exact Hk|reflexivity].
Qed.

(** X3: an explicit start line (re)starts the gateway's record: a fresh
    in-progress record with the line's timestamp and the stripped version
    text replaces any earlier one (last start wins), in the same dict
    position; other records are untouched. *)
Theorem start_line_overwrites : forall line ts cs self,
  start_line line ts cs ->
  exists self',
    parse_line line self = Ok self' /\
    dict_get (group_or_empty 1 cs) (upgrades self') =
      Some (mk_event (group_or_empty 1 cs) ts None (strip (group_or_empty 2 cs))
              "in_progress") /\
    (forall k, k <> group_or_empty 1 cs ->
               dict_get k (upgrades self') = dict_get k (upgrades self)) /\
    (dict_get (group_or_empty 1 cs) (upgrades self) <> None ->
     dict_keys (upgrades self') = dict_keys (upgrades self)) /\
    overall_start_time self' = overall_start_time self.
Proof.
  intros line ts cs self Hl. rewrite (parse_line_start line ts cs self Hl).
  eexists. split; [reflexivity|]. simpl.
  split; [apply dict_get_set_same|].
  split; [intros k Hk; apply dict_get_set_other; exact Hk|].
  split; [apply dict_keys_set_present|reflexivity].
Qed.

(** X4: a completion line for a gateway whose record is in progress keeps
    its start time, sets its end time to the line's timestamp, marks it
    complete and appends [" -> <curr_ver>"] to its version note; the dict's
    keys and the other records stay as they were. *)
Theorem completion_of_open_record : forall line ts cs self u,
  completion_line line ts cs ->
  dict_get (group_or_empty 1 cs) (upgrades self) = Some u ->
  status u <> "complete" ->
  exists self',
    parse_line line self = Ok self' /\
    dict_get (group_or_empty 1 cs) (upgrades self') =
      Some (mk_event (gateway_name u) (start_time u) (Some ts)
              (version_info u ++ " -> " ++ group_or_empty 2 cs) "complete") /\
    dict_keys (upgrades self') = dict_keys (upgrades self) /\
    (forall k, k <> group_or_empty 1 cs ->
               dict_get k (upgrades self') = dict_get k (upgrades self)).
Proof.
  intros line ts cs self u Hl Hu Hst.
  rewrite (parse_line_completion line ts cs self Hl). cbv zeta. rewrite Hu.
  destruct (String.eqb (status u) "complete") eqn:E;
    [apply String.eqb_eq in E; contradiction|].
  simpl. eexists. split; [reflexivity|]. simpl.
  split; [apply dict_get_set_same|].
  split; [apply dict_keys_set_present; rewrite Hu; discriminate|].
  intros k Hk. apply dict_get_set_other. exact Hk.
Qed.

(** X5: first completion wins: any completion line (whatever its timestamp
    and version) for a gateway whose record is already complete leaves the
    parser state unchanged. *)
Theorem completion_of_complete_record_noop : forall line ts cs self u,
  completion_line line ts cs ->
  dict_get (group_or_empty 1 cs) (upgrades self) = Some u ->
  status u = "complete" ->
  parse_line line self = Ok self.
Proof.
  intros line ts cs self u Hl Hu Hst.
  rewrite (parse_line_completion line ts cs self Hl). cbv zeta. rewrite Hu, Hst.
  reflexivity.
Qed.

Lemma installing_known_gateway_noop_witness :
  exists ts cs,
    installing_line example_installing_line ts cs /\
    dict_get (group_or_empty 1 cs) (upgrades example_state_after_start) <> None /\
    parse_line example_installing_line example_state_after_start =
      Ok example_state_after_start.
Proof.
  installing_facts example_installing_line.
  assert (Hl : installing_line example_installing_line ts cs).
  { split; [exact Ets|]. split; [vm_compute; reflexivity|].
    split; [vm_compute; reflexivity|]. exact Ecs. }
  assert (Hk : dict_get (group_or_empty 1 cs) (upgrades example_state_after_start) <> None).
  { vm_compute in Ecs. injection Ecs as <-. vm_compute. discriminate. }
  exists ts, cs. split; [exact Hl|]. split; [exact Hk|].
  exact (installing_known_gateway_noop example_installing_line ts cs
           example_state_after_start Hl Hk).
Defined.

Lemma installing_new_gateway_appends_witness :
  exists ts cs self',
    installing_line example_installing_line ts cs /\
    dict_get (group_or_empty 1 cs) (upgrades LogParser_init) = None /\
    parse_line example_installing_line LogParser_init = Ok self'.
Proof.
  installing_facts example_installing_line.
  assert (Hl : installing_line example_installing_line ts cs).
  { split; [exact Ets|]. split; [vm_compute; reflexivity|].
    split; [vm_compute; reflexivity|]. exact Ecs. }
  assert (Hn : dict_get (group_or_empty 1 cs) (upgrades LogParser_init) = None)
    by reflexivity.
  destruct (installing_new_gateway_appends example_installing_line ts cs
              LogParser_init Hl Hn) as [s' [Hp _]].
  exists ts, cs, s'. split; [exact Hl|]. split; [exact Hn|exact Hp].
Defined.

Lemma start_line_overwrites_witness :
  exists ts cs self',
    start_line example_start_line ts cs /\
    parse_line example_start_line example_state_after_start = Ok self'.
Proof.
  destruct (parse_timestamp (strip example_start_line)) as [[ts|]|e] eqn:Ets;
    [|vm_compute in Ets; discriminate..].
  destruct (re_search upgrade_start_pattern (strip example_start_line))
    as [cs|] eqn:Ecs; [|vm_compute in Ecs; discriminate].
  assert (Hl : start_line example_start_line ts cs).
  { split; [exact Ets|]. split; [vm_compute; reflexivity|exact Ecs]. }
  destruct (start_line_overwrites example_start_line ts cs
              example_state_after_start Hl) as [s' [Hp _]].
  exists ts, cs, s'. split; [exact Hl|exact Hp].
Defined.

Lemma completion_of_open_record_witness :
  exists ts cs u self',
    completion_line example_complete_line ts cs /\
    dict_get (group_or_empty 1 cs) (upgrades example_state_after_start) = Some u /\
    status u <> "complete" /\
    parse_line example_complete_line example_state_after_start = Ok self'.
Proof.
  completion_facts example_complete_line.
  assert (Hl : completion_line example_complete_line ts cs).
  { split; [exact Ets|]. split; [vm_compute; reflexivity|].
    split; [vm_compute; reflexivity|]. split; [vm_compute; reflexivity|].
    exact Ecs. }
  destruct (dict_get (group_or_empty 1 cs) (upgrades example_state_after_start))
    as [u|] eqn:Eu; [|vm_compute in Ecs; injection Ecs as <-; vm_compute in Eu; discriminate].
  assert (Hs : status u <> "complete").
  { vm_compute in Ecs. injection Ecs as <-. vm_compute in Eu.
    injection Eu as <-. vm_compute. discriminate. }
  destruct (completion_of_open_record example_complete_line ts cs
              example_state_after_start u Hl Eu Hs) as [s' [Hp _]].
  exists ts, cs, u, s'. split; [exact Hl|]. split; [exact Eu|].
  split; [exact Hs|exact Hp].
Defined.

Lemma completion_of_complete_record_noop_witness :
  exists ts cs u,
    completion_line example_complete_line ts cs /\
    dict_get (group_or_empty 1 cs) (upgrades example_state_after_complete) = Some u /\
    status u = "complete" /\
    parse_line example_complete_line example_state_after_complete =
      Ok example_state_after_complete.
Proof.
  completion_facts example_complete_line.
  assert (Hl : completion_line example_complete_line ts cs).
  { split; [exact Ets|]. split; [vm_compute; reflexivity|].
    split; [vm_compute; reflexivity|]. split; [vm_compute; reflexivity|].
    exact Ecs. }
  destruct (dict_get (group_or_empty 1 cs) (upgrades example_state_after_complete))
    as [u|] eqn:Eu; [|vm_compute in Ecs; injection Ecs as <-; vm_compute in Eu; discriminate].
  assert (Hs : status u = "complete").
  { vm_compute in Ecs. injection Ecs as <-. vm_compute in Eu.
    injection Eu as <-. reflexivity. }
  exists ts, cs, u. split; [exact Hl|]. split; [exact Eu|].
  split; [exact Hs|].
  exact (completion_of_complete_record_noop example_complete_line ts cs
           example_state_after_complete u Hl Eu Hs).
Defined.

(** *** Record consistency *)

Lemma dict_set_consistent : forall k v d,
  consistent_event v -> dict_consistent d -> dict_consistent (dict_set k v d).
Proof.
  intros k v d Hv Hd. induction Hd as [|[k' v'] d Hkv Hd IH]; simpl.
  - constructor; [exact Hv|constructor].
  - destruct (String.eqb k k'); constructor; auto.
Qed.

Lemma dict_get_consistent : forall k u d,
  dict_consistent d -> dict_get k d = Some u -> consistent_event u.
Proof.
  intros k u d Hd. induction Hd as [|[k' v'] d Hkv Hd IH]; simpl; [discriminate|].
  destruct (String.eqb k k'); [intros H; injection H as <-; exact Hkv|exact IH].
Qed.

Lemma parse_line_consistent : forall line self self',
  dict_consistent (upgrades self) -> parse_line line self = Ok self' ->
  dict_consistent (upgrades self').
Proof.
  intros line self self' Hc H. unfold parse_line in H. cbv zeta in H.
  destruct (String.eqb (strip line) ""); [injection H as <-; exact Hc|].
  destruct (parse_timestamp (strip line)) as [[ts|]|e]; cbn [bind] in H;
    [|injection H as <-; exact Hc|discriminate].
  destruct (re_search overall_start_pattern _);
    [injection H as <-; constructor|].
  destruct (re_search upgrade_start_pattern _) as [cs|].
  { injection H as <-. apply dict_set_consistent; [reflexivity|exact Hc]. }
  destruct (re_search upgrade_installing_pattern _) as [cs|].
  { destruct (dict_get _ _); injection H as <-; [exact Hc|].
    apply dict_set_consistent; [reflexivity|exact Hc]. }
  destruct (re_search upgrade_complete_pattern _) as [cs|];
    [|injection H as <-; exact Hc].
  destruct (dict_get (group_or_empty 1 cs) (upgrades self)) as [u|] eqn:Eg.
  - destruct (negb _); injection H as <-; [|exact Hc].
    apply dict_set_consistent; [reflexivity|exact Hc].
  - injection H as <-. apply dict_set_consistent; [reflexivity|exact Hc].
Qed.

Lemma parse_all_consistent : forall lines self self',
  dict_consistent (upgrades self) -> parse_all lines self = Ok self' ->
  dict_consistent (upgrades self').
Proof.
  induction lines as [|l ls IH]; intros self self' Hc H; simpl in H.
  - injection H as <-. exact Hc.
  - destruct (parse_line l self) as [s1|e] eqn:E; simpl in H; [|discriminate].
    apply (IH s1); [eapply parse_line_consistent; eauto|exact H].
Qed.

(** X6: every record [parse_logs] returns is consistent: its status is
    ["complete"] exactly when it has an end time, ["in_progress"]
    otherwise. *)
Theorem parse_logs_records_consistent : forall lines p out,
  parse_logs lines LogParser_init = Ok (p, out) ->
  Forall consistent_event out.
Proof.
  intros lines p out H. unfold parse_logs in H.
  destruct (parse_all lines LogParser_init) as [p'|e] eqn:E; simpl in H;
    [|discriminate].
  injection H as <- <-.
  assert (Hc : dict_consistent (upgrades p'))
    by (apply (parse_all_consistent lines LogParser_init); [constructor|exact E]).
  apply (Permutation_Forall (Permutation_sym (sort_by_start_perm _))).
  unfold dict_values. apply Forall_map. exact Hc.
Qed.

Lemma parse_logs_records_consistent_witness :
  exists p out,
    parse_logs example_lines LogParser_init = Ok (p, out) /\
    Forall consistent_event out.
Proof.
  destruct (parse_logs example_lines LogParser_init) as [[p out]|e] eqn:E.
  - exists p, out. split; [reflexivity|].
    exact (parse_logs_records_consistent example_lines p out E).
  - vm_compute in E. discriminate.
Defined.

(** *** Resets in a log *)

Lemma parse_all_app : forall pre post self,
  parse_all (pre ++ post) self = (s <- parse_all pre self ;; parse_all post s).
Proof.
  induction pre as [|l ls IH]; intros post self; simpl; [reflexivity|].
  destruct (parse_line l self) as [s1|e]; simpl; [apply IH|reflexivity].
Qed.

Lemma parse_line_reset : forall line ts self,
  reset_line line ts -> parse_line line self = Ok (mk_parser [] (Some ts)).
Proof.
  intros line ts self [Hts Hr]. unfold parse_line. cbv zeta.
  rewrite (timestamped_line_nonempty line ts Hts), Hts. cbn [bind].
  destruct (re_search overall_start_pattern (strip line)); [reflexivity|].
  exfalso. apply Hr. reflexivity.
Qed.

(** X7: once the lines before a reset line parse without error, they have
    no effect at all on the outcome: parsing the whole log is parsing the
    lines after the reset from an empty dict whose overall start time is
    the reset's timestamp. *)
Theorem reset_forgets_prefix : forall pre r post ts self s1,
  reset_line r ts ->
  parse_all pre self = Ok s1 ->
  parse_all (pre ++ r :: post) self = parse_all post (mk_parser [] (Some ts)).
Proof.
  intros pre r post ts self s1 Hr Hpre.
  rewrite parse_all_app, Hpre. simpl.
  rewrite (parse_line_reset r ts s1 Hr). reflexivity.
Qed.

Lemma reset_forgets_prefix_witness :
  exists ts s1,
    reset_line example_reset_line ts /\
    parse_all [example_start_line] LogParser_init = Ok s1 /\
    parse_all ([example_start_line] ++ example_reset_line :: [example_complete_line])
      LogParser_init =
    parse_all [example_complete_line] (mk_parser [] (Some ts)).
Proof.
  destruct (parse_timestamp (strip example_reset_line)) as [[ts|]|e] eqn:E1;
    [|vm_compute in E1; discriminate..].
  assert (Hr : reset_line example_reset_line ts).
  { split; [exact E1|]. vm_compute. discriminate. }
  destruct (parse_all [example_start_line] LogParser_init) as [s1|e] eqn:E2;
    [|vm_compute in E2; discriminate].
  exists ts, s1. split; [exact Hr|]. split; [reflexivity|].
  exact (reset_forgets_prefix [example_start_line] example_reset_line
           [example_complete_line] ts LogParser_init s1 Hr E2).
Defined.

(** *** Statistics, chart and [main] *)

Section ExtraFacts.
Local Open Scope Q_scope.



Lemma bind_ok_inv : forall {A B} (m : except A) (k : A -> except B) y,
  bind m k = Ok y -> exists a, m = Ok a /\ k a = Ok y.
Proof. intros A B [a|e] k y H; [exists a; split; [reflexivity|exact H]|discriminate]. Qed.







Lemma Qlt_bool_spec : forall a b, Qlt_bool a b = true <-> a < b.
Proof.
  intros a b. unfold Qlt_bool. rewrite negb_true_iff.
  split; intros H.
  - apply Qnot_le_lt. intros Hle. apply Qle_bool_iff in Hle. congruence.
  - destruct (Qle_bool b a) eqn:E; [|reflexivity].
    apply Qle_bool_iff in E. lra.
Qed.




Lemma inject_Z_succ : forall k : nat,
  inject_Z (Z.of_nat (S k)) == inject_Z (Z.of_nat k) + 1.
Proof.
  intros k. rewrite Nat2Z.inj_succ, <- Z.add_1_r, inject_Z_plus. reflexivity.
Qed.

















Lemma py_max_ge_l : forall a b, a <= py_max a b.
Proof.
  intros a b. unfold py_max. destruct (Qlt_bool a b) eqn:E.
  - apply Qlt_bool_spec in E. lra.
  - apply Qle_refl.
Qed.

Lemma draw_bar_spec : forall mt td cw bh ys i u b,
  draw_bar mt td cw bh ys i u = Ok b ->
  bar_matches cw u b /\ bar_height b = bh /\
  bar_y b = inject_Z (Z.of_nat i) * ys + (ys - inject_Z bh) / 2.
Proof.
  intros mt td cw bh ys i u b H. unfold draw_bar in H. cbv zeta in H.
  destruct (py_div _ td) as [q|e]; cbn [bind] in H; [|discriminate].
  unfold bar_matches. destruct (end_time u) as [e|].
  - destruct (py_div _ td) as [r|e']; cbn [bind] in H; [|discriminate].
    injection H as <-. simpl. repeat split. apply py_max_ge_l.
  - injection H as <-. simpl. repeat split. ring.
Qed.

Lemma draw_bars_from_spec : forall ups i mt td cw bh ys bars,
  draw_bars_from i mt td cw bh ys ups = Ok bars ->
  List.length bars = List.length ups /\
  forall j u b, nth_error ups j = Some u -> nth_error bars j = Some b ->
    bar_matches cw u b /\ bar_height b = bh /\
    bar_y b = inject_Z (Z.of_nat (i + j)) * ys + (ys - inject_Z bh) / 2.
Proof.
  induction ups as [|u us IH]; intros i mt td cw bh ys bars H; simpl in H.
  - injection H as <-. split; [reflexivity|]. intros [|j]; discriminate.
  - destruct (draw_bar mt td cw bh ys i u) as [b|e] eqn:Eb; cbn [bind] in H;
      [|discriminate].
    destruct (draw_bars_from (S i) mt td cw bh ys us) as [bs|e] eqn:Ebs;
      cbn [bind] in H; [|discriminate].
    injection H as <-. destruct (IH (S i) mt td cw bh ys bs Ebs) as [Hl Hj].
    split; [simpl; congruence|].
    intros [|j] u' b' Hu Hb; simpl in Hu, Hb.
    + injection Hu as <-. injection Hb as <-. rewrite Nat.add_0_r.
      exact (draw_bar_spec mt td cw bh ys i u b Eb).
    + rewrite <- Nat.add_succ_comm. exact (Hj j u' b' Hu Hb).
Qed.

Lemma generate_chart_shape : forall bw bh ups sc,
  generate_chart bw bh ups = Ok (GanttChart sc) ->
  exists u0 us ticks,
    ups = u0 :: us /\
    let n := Z.of_nat (List.length ups) in
    sc_width sc = bw /\
    sc_height sc = Z.max bh (n * 22 + 240) /\
    sc_chart_width sc = (bw - 250)%Z /\
    sc_chart_height sc = (Z.max bh (n * 22 + 240) - 140)%Z /\
    draw_time_axis (sc_chart_width sc) (sc_min_time sc) (sc_total_duration sc) = Ok ticks /\
    sc_ticks sc = ticks /\
    draw_bars_from 0 (sc_min_time sc) (sc_total_duration sc) (sc_chart_width sc)
      (Z.max 20 (Z.min 25 (sc_chart_height sc / n - 2)))
      (py_max (inject_Z (Z.max 20 (Z.min 25 (sc_chart_height sc / n - 2)) + 2))
              (inject_Z (sc_chart_height sc) / inject_Z n)) ups = Ok (sc_bars sc).
Proof.
  intros bw bh ups sc H. unfold generate_chart in H.
  destruct ups as [|u0 us]; [discriminate|]. cbv zeta in H.
  destruct (time_range u0 us) as [[mn mx]|e]; cbn [bind] in H; [|discriminate].
  destruct (draw_time_axis _ mn _) as [ticks|e] eqn:Et; cbn [bind] in H; [|discriminate].
  destruct (draw_bars_from _ _ _ _ _ _ _) as [bars|e] eqn:Eb; cbn [bind] in H;
    [|discriminate].
  injection H as <-. exists u0, us, ticks. cbv zeta.
  remember (Z.of_nat (List.length (u0 :: us))) as n eqn:En.
  cbn [sc_width sc_height sc_chart_width sc_chart_height sc_min_time
       sc_total_duration sc_ticks sc_bars].
  unfold margin_top, margin_bottom, margin_left, margin_right in *.
  split; [reflexivity|]. split; [reflexivity|].
  assert (En' : n = Z.succ (Z.of_nat (List.length us)))
    by (rewrite En; cbn [List.length]; apply Nat2Z.inj_succ).
  split; [rewrite ?Pos2Z.inj_add, ?Pos2Z.inj_mul, ?Zpos_P_of_succ_nat; f_equal; lia|].
  split; [lia|].
  split; [rewrite ?Pos2Z.inj_add, ?Pos2Z.inj_mul, ?Zpos_P_of_succ_nat; lia|].
  split; [exact Et|]. split; [reflexivity|]. subst n. exact Eb.
Qed.

Lemma bars_nth_upgrade : forall {A B} (ups : list A) (bars : list B) j b,
  List.length bars = List.length ups -> nth_error bars j = Some b ->
  exists u, nth_error ups j = Some u.
Proof.
  intros A B ups bars j b Hl Hb. destruct (nth_error ups j) as [u|] eqn:E; [eauto|].
  apply nth_error_None in E. assert (Hs : nth_error bars j <> None) by congruence.
  apply nth_error_Some in Hs. lia.
Qed.

Lemma generate_chart_bars_spec : forall bw bh ups sc,
  generate_chart bw bh ups = Ok (GanttChart sc) ->
  List.length (sc_bars sc) = List.length ups /\
  forall j u b, nth_error ups j = Some u -> nth_error (sc_bars sc) j = Some b ->
    bar_matches (sc_chart_width sc) u b.
Proof.
  intros bw bh ups sc H.
  destruct (generate_chart_shape bw bh ups sc H)
    as (u0 & us & ticks & _ & _ & _ & _ & _ & _ & _ & Eb).
  destruct (draw_bars_from_spec _ _ _ _ _ _ _ _ Eb) as [Hl Hj].
  split; [exact Hl|]. intros j u b Hu Hb. apply (Hj j u b Hu Hb).
Qed.

(** X10: [generate_chart] draws one bar per upgrade, in the order of the
    list; each bar carries the upgrade's display name; a completed upgrade
    is green and at least 2 units wide; an open one is yellow and reaches
    the right edge of the chart area. *)
Theorem generate_chart_bars : forall bw bh ups sc,
  generate_chart bw bh ups = Ok (GanttChart sc) ->
  List.length (sc_bars sc) = List.length ups /\
  forall j u b, nth_error ups j = Some u -> nth_error (sc_bars sc) j = Some b ->
    bar_matches (sc_chart_width sc) u b.
Proof. exact generate_chart_bars_spec. Qed.

Lemma generate_chart_bars_witness : exists sc,
  generate_chart 1200 800 example_stats_input = Ok (GanttChart sc) /\
  List.length (sc_bars sc) = List.length example_stats_input /\
  forall j u b, nth_error example_stats_input j = Some u ->
    nth_error (sc_bars sc) j = Some b -> bar_matches (sc_chart_width sc) u b.
Proof.
  destruct (generate_chart 1200 800 example_stats_input) as [[|sc]|e] eqn:E;
    [vm_compute in E; discriminate| |vm_compute in E; discriminate].
  exists sc. split; [reflexivity|]. exact (generate_chart_bars _ _ _ sc E).
Defined.

(** X11: the chart grows with the number of upgrades (22 units per bar
    plus 240 of margins, never below the base height); every bar is 20 to
    25 units high; consecutive bars never overlap and keep a gap of at
    least 2 units. *)
Theorem generate_chart_layout : forall bw bh ups sc,
  generate_chart bw bh ups = Ok (GanttChart sc) ->
  sc_height sc = Z.max bh (Z.of_nat (List.length ups) * 22 + 240) /\
  sc_chart_width sc = (bw - 250)%Z /\
  (forall b, In b (sc_bars sc) -> (20 <= bar_height b <= 25)%Z) /\
  (forall j b b', nth_error (sc_bars sc) j = Some b ->
     nth_error (sc_bars sc) (S j) = Some b' ->
     bar_y b + inject_Z (bar_height b) + 2 <= bar_y b').
Proof.
  intros bw bh ups sc H.
  destruct (generate_chart_shape bw bh ups sc H)
    as (u0 & us & ticks & _ & _ & Hh & Hcw & _ & _ & _ & Eb).
  destruct (draw_bars_from_spec _ _ _ _ _ _ _ _ Eb) as [Hl Hj].
  split; [exact Hh|]. split; [exact Hcw|].
  split.
  - intros b Hb. apply In_nth_error in Hb. destruct Hb as [j Hb].
    destruct (bars_nth_upgrade ups _ j b Hl Hb) as [u Hu].
    destruct (Hj j u b Hu Hb) as (_ & -> & _). lia.
  - intros j b b' Hb Hb'.
    destruct (bars_nth_upgrade ups _ j b Hl Hb) as [u Hu].
    destruct (bars_nth_upgrade ups _ (S j) b' Hl Hb') as [u' Hu'].
    destruct (Hj j u b Hu Hb) as (_ & Hbh & Hy).
    destruct (Hj (S j) u' b' Hu' Hb') as (_ & _ & Hy').
    rewrite Hy, Hy', Hbh. cbn [Nat.add].
    match goal with
    | |- _ <= _ * ?ys + _ =>
        assert (Hys : inject_Z (Z.max 20 (Z.min 25 (sc_chart_height sc /
                        Z.of_nat (List.length ups) - 2))) + 2 <= ys)
    end.
    { eapply Qle_trans; [|apply py_max_ge_l]. rewrite inject_Z_plus. apply Qle_refl. }
    rewrite inject_Z_succ.
    match goal with
    | |- _ <= (?x + 1) * ?ys + _ =>
        setoid_replace ((x + 1) * ys) with (x * ys + ys) by ring
    end.
    lra.
Qed.

Lemma generate_chart_layout_witness : exists sc,
  generate_chart 1200 800 example_stats_input = Ok (GanttChart sc) /\
  sc_height sc = Z.max 800 (Z.of_nat (List.length example_stats_input) * 22 + 240) /\
  sc_chart_width sc = (1200 - 250)%Z /\
  (forall b, In b (sc_bars sc) -> (20 <= bar_height b <= 25)%Z) /\
  (forall j b b', nth_error (sc_bars sc) j = Some b ->
     nth_error (sc_bars sc) (S j) = Some b' ->
     bar_y b + inject_Z (bar_height b) + 2 <= bar_y b').
Proof.
  destruct (generate_chart 1200 800 example_stats_input) as [[|sc]|e] eqn:E;
    [vm_compute in E; discriminate| |vm_compute in E; discriminate].
  exists sc. split; [reflexivity|]. exact (generate_chart_layout _ _ _ sc E).
Defined.

Lemma mapM_nth : forall {A B} (f : A -> except B) l ys,
  mapM f l = Ok ys ->
  List.length ys = List.length l /\
  forall k y, nth_error ys k = Some y -> exists x, nth_error l k = Some x /\ f x = Ok y.
Proof.
  intros A B f. induction l as [|x l IH]; intros ys H; simpl in H.
  - injection H as <-. split; [reflexivity|]. intros [|k]; discriminate.
  - destruct (f x) as [y|e] eqn:Ef; cbn [bind] in H; [|discriminate].
    destruct (mapM f l) as [ys'|e] eqn:Em; cbn [bind] in H; [|discriminate].
    injection H as <-. destruct (IH ys' eq_refl) as [Hl Hk].
    split; [simpl; congruence|].
    intros [|k] y' Hy; simpl in Hy.
    + injection Hy as <-. exists x. split; [reflexivity|exact Ef].
    + exact (Hk k y' Hy).
Qed.

Lemma draw_time_axis_spec : forall cw mt td ticks,
  draw_time_axis cw mt td = Ok ticks ->
  List.length ticks = 9%nat /\
  forall k t, nth_error ticks k = Some t ->
    tick_x t = inject_Z (Z.of_nat k) / inject_Z 8 * inject_Z cw.
Proof.
  intros cw mt td ticks Et. unfold draw_time_axis in Et.
  destruct (mapM_nth _ _ _ Et) as [Hl Hk].
  split; [rewrite Hl; reflexivity|].
  intros k t Hkt. destruct (Hk k t Hkt) as (x & Hx & Hf).
  rewrite nth_error_seq in Hx.
  destruct (Nat.ltb k _); [|discriminate]. injection Hx as <-.
  cbv beta zeta in Hf.
  apply bind_ok_inv in Hf. destruct Hf as (base & _ & Hf).
  apply bind_ok_inv in Hf. destruct Hf as (tt & _ & Hf).
  injection Hf as <-. reflexivity.
Qed.

(** X12: the time axis has 9 ticks, tick [k] at [k/8] of the chart
    width, so the first at the left edge and the last at the right edge. *)
Theorem generate_chart_ticks : forall bw bh ups sc,
  generate_chart bw bh ups = Ok (GanttChart sc) ->
  List.length (sc_ticks sc) = 9%nat /\
  forall k t, nth_error (sc_ticks sc) k = Some t ->
    tick_x t = inject_Z (Z.of_nat k) / inject_Z 8 * inject_Z (sc_chart_width sc).
Proof.
  intros bw bh ups sc H.
  destruct (generate_chart_shape bw bh ups sc H)
    as (u0 & us & ticks & _ & _ & _ & _ & _ & Et & Ht & _).
  rewrite Ht. exact (draw_time_axis_spec _ _ _ _ Et).
Qed.

Lemma generate_chart_ticks_witness : exists sc,
  generate_chart 1200 800 example_stats_input = Ok (GanttChart sc) /\
  List.length (sc_ticks sc) = 9%nat /\
  forall k t, nth_error (sc_ticks sc) k = Some t ->
    tick_x t = inject_Z (Z.of_nat k) / inject_Z 8 * inject_Z (sc_chart_width sc).
Proof.
  destruct (generate_chart 1200 800 example_stats_input) as [[|sc]|e] eqn:E;
    [vm_compute in E; discriminate| |vm_compute in E; discriminate].
  exists sc. split; [reflexivity|]. exact (generate_chart_ticks _ _ _ sc E).
Defined.

Lemma string_length_append : forall s1 s2,
  String.length (s1 ++ s2) = (String.length s1 + String.length s2)%nat.
Proof. induction s1 as [|c s1 IH]; intros s2; simpl; [reflexivity|]. rewrite IH. reflexivity. Qed.

Lemma substring0_length : forall s m, (m <= String.length s)%nat ->
  String.length (substring 0 m s) = m.
Proof.
  induction s as [|c s IH]; intros [|m] H; simpl in *; try reflexivity; try lia.
  rewrite IH by lia. reflexivity.
Qed.

(** X13: a bar label is at most 25 characters long, and it is the
    gateway name unchanged exactly when the name has at most 25
    characters. *)
Theorem display_name_bounded : forall name,
  (String.length (display_name name) <= 25)%nat /\
  (display_name name = name <-> (String.length name <= 25)%nat).
Proof.
  intros name. unfold display_name.
  destruct (Nat.ltb_spec 25 (String.length name)) as [H|H].
  - rewrite string_length_append, substring0_length by lia. simpl.
    split; [lia|]. split; [|lia]. intros E.
    assert (E' : String.length (substring 0 22 name ++ "...") = String.length name)
      by (rewrite E; reflexivity).
    rewrite string_length_append, substring0_length in E' by lia. simpl in E'. lia.
  - split; [exact H|]. split; [intros _; exact H|reflexivity].
Qed.

Lemma main_no_help : forall argv stdin,
  (forall a1, nth_error argv 1 = Some a1 -> a1 <> "-h"%string /\ a1 <> "--help"%string) ->
  main argv stdin = main_run stdin.
Proof.
  intros argv stdin H. unfold main.
  destruct argv as [|a0 [|a1 rest]]; [reflexivity|reflexivity|].
  destruct (H a1 eq_refl) as [H1 H2].
  destruct (String.eqb a1 "-h") eqn:E1; [apply String.eqb_eq in E1; contradiction|].
  destruct (String.eqb a1 "--help") eqn:E2; [apply String.eqb_eq in E2; contradiction|].
  reflexivity.
Qed.

Lemma sort_by_start_nil : forall l, sort_by_start l = [] -> l = [].
Proof.
  intros l H. pose proof (Permutation_length (sort_by_start_perm l)) as Hl.
  rewrite H in Hl. destruct l; [reflexivity|discriminate].
Qed.

(** X14: unless the first argument asks for help, [main] stops with
    "No gateway upgrades found" exactly when the input parses without
    error to an empty dict of upgrades. *)
Theorem main_no_upgrades_iff : forall argv stdin,
  (forall a1, nth_error argv 1 = Some a1 -> a1 <> "-h"%string /\ a1 <> "--help"%string) ->
  (main argv stdin = Ok NoUpgradesFound <->
   exists p, parse_all stdin LogParser_init = Ok p /\ upgrades p = []).
Proof.
  intros argv stdin Hargs. rewrite (main_no_help argv stdin Hargs).
  unfold main_run, parse_logs.
  destruct (parse_all stdin LogParser_init) as [p|e] eqn:E; cbn [bind].
  - cbn [snd]. destruct (sort_by_start (dict_values (upgrades p))) as [|u0 us] eqn:Es.
    + split; [intros _|reflexivity]. exists p. split; [reflexivity|].
      apply sort_by_start_nil in Es. unfold dict_values in Es.
      destruct (upgrades p); [reflexivity|discriminate].
    + split.
      * destruct (calculate_upgrade_stats _); cbn [bind]; [|discriminate].
        destruct (generate_chart_default _); cbn [bind]; discriminate.
      * intros (p' & Hp' & Hn). injection Hp' as <-. rewrite Hn in Es. discriminate.
  - split; [discriminate|]. intros (p' & Hp' & _). discriminate.
Qed.

Lemma main_no_upgrades_iff_witness :
  (forall a1, nth_error ["upgrade_viz.py"] 1 = Some a1 -> a1 <> "-h" /\ a1 <> "--help") /\
  (main ["upgrade_viz.py"] [example_reset_line] = Ok NoUpgradesFound <->
   exists p, parse_all [example_reset_line] LogParser_init = Ok p /\ upgrades p = []).
Proof.
  assert (H : forall a1, nth_error ["upgrade_viz.py"] 1 = Some a1 ->
                a1 <> "-h" /\ a1 <> "--help") by (intros a1 Ha; discriminate).
  split; [exact H|]. exact (main_no_upgrades_iff _ _ H).
Defined.

Lemma map_nth_rel : forall {A B C} (f : A -> C) (g : B -> C) l1 l2,
  List.length l2 = List.length l1 ->
  (forall j a b, nth_error l1 j = Some a -> nth_error l2 j = Some b -> g b = f a) ->
  map g l2 = map f l1.
Proof.
  intros A B C f g l1. induction l1 as [|a l1 IH]; intros [|b l2] Hl Hj;
    simpl in *; try discriminate; [reflexivity|].
  rewrite (Hj 0%nat a b eq_refl eq_refl). f_equal.
  apply IH; [lia|]. intros j a' b' Ha Hb. exact (Hj (S j) a' b' Ha Hb).
Qed.

(** X15: when [main] prints a chart, the input parsed to at least one
    upgrade, the statistics are those of the sorted upgrades, the chart is
    a Gantt chart and never the empty one, and its bars are labelled with
    the upgrades' display names in start-time order. *)
Theorem main_prints_gantt_chart : forall argv stdin st ch,
  main argv stdin = Ok (PrintChart st ch) ->
  exists p sc,
    parse_all stdin LogParser_init = Ok p /\
    upgrades p <> [] /\
    calculate_upgrade_stats (sort_by_start (dict_values (upgrades p))) = Ok st /\
    ch = GanttChart sc /\
    map bar_label (sc_bars sc) =
      map (fun u => display_name (gateway_name u))
        (sort_by_start (dict_values (upgrades p))).
Proof.
  intros argv stdin st ch H.
  assert (Hr : main_run stdin = Ok (PrintChart st ch)).
  { unfold main in H. destruct argv as [|a0 [|a1 rest]]; try exact H.
    destruct (String.eqb a1 "-h" || String.eqb a1 "--help"); [discriminate|exact H]. }
  clear H. unfold main_run, parse_logs in Hr.
  destruct (parse_all stdin LogParser_init) as [p|e] eqn:E; cbn [bind] in Hr;
    [|discriminate].
  cbn [snd] in Hr.
  destruct (sort_by_start (dict_values (upgrades p))) as [|u0 us] eqn:Es;
    [discriminate|].
  destruct (calculate_upgrade_stats (u0 :: us)) as [st'|e] eqn:Est; cbn [bind] in Hr;
    [|discriminate].
  destruct (generate_chart_default (u0 :: us)) as [ch'|e] eqn:Ech; cbn [bind] in Hr;
    [|discriminate].
  injection Hr as <- <-.
  destruct ch' as [|sc].
  - unfold generate_chart_default, generate_chart in Ech. cbv zeta in Ech.
    apply bind_ok_inv in Ech. destruct Ech as ([mn mx] & _ & Ech).
    apply bind_ok_inv in Ech. destruct Ech as (ticks & _ & Ech).
    apply bind_ok_inv in Ech. destruct Ech as (bars & _ & Ech). discriminate.
  - exists p, sc. split; [reflexivity|].
    split; [intros Hn; rewrite Hn in Es; discriminate|].
    rewrite Es. split; [exact Est|]. split; [reflexivity|].
    destruct (generate_chart_bars_spec _ _ _ sc Ech) as [Hl Hj].
    apply map_nth_rel; [exact Hl|].
    intros j u b Hu Hb. apply (Hj j u b Hu Hb).
Qed.

Lemma main_prints_gantt_chart_witness : exists st ch p sc,
  main ["upgrade_viz.py"] example_lines = Ok (PrintChart st ch) /\
  parse_all example_lines LogParser_init = Ok p /\
  upgrades p <> [] /\
  calculate_upgrade_stats (sort_by_start (dict_values (upgrades p))) = Ok st /\
  ch = GanttChart sc /\
  map bar_label (sc_bars sc) =
    map (fun u => display_name (gateway_name u)) (sort_by_start (dict_values (upgrades p))).
Proof.
  destruct (main ["upgrade_viz.py"] example_lines) as [[| |st ch]|e] eqn:E;
    try (vm_compute in E; discriminate).
  destruct (main_prints_gantt_chart _ _ st ch E) as (p & sc & H).
  exists st, ch, p, sc. split; [reflexivity|exact H].
Defined.

End ExtraFacts.
